(** * terraform-provider-vaultoperator: transport resolution and state reconciliation

    A shallow embedding of the provider's Go code together with the
    properties the design document states about it: [configure] of
    [internal/provider/provider.go] (both revisions found in the source tree)
    and the init resource with its hooks, importer and [updateState].

    The Go code talks to four outside parties: the Terraform plugin SDK
    ([schema.ResourceData], [diag]), the Kubernetes client library, the Vault
    API client and the Go standard library ([os], [net/url], [path/filepath],
    [io/ioutil], [encoding/json]).  The SDK's data accessors are modelled as
    executable functions over finite maps; every other outside call is a field
    of a record of collaborators, and each call is recorded in a trace so that
    "this call never happens" can be stated. *)

From Stdlib Require Import ZArith Ascii.
From stdpp Require Import base option gmap strings list fin_maps.

Local Open Scope Z_scope.
Set Warnings "-register-all".
Set Default Proof Using "Type".

(** ** Go values behind [interface{}] *)

(** What the SDK hands out as [interface{}]: primitives, [[]interface{}] and
    [map[string]interface{}]. *)
Inductive Value :=
| VString (s : string)
| VBool (b : bool)
| VInt (n : Z)
| VList (l : list Value)
| VMap (m : gmap string Value).

(** Go's [error] values; only the message is observable here. *)
Inductive error := errors_New (msg : string).

Definition Error (e : error) : string := match e with errors_New m => m end.

(** A Go [(T, error)] result. *)
Inductive Result (A : Type) :=
| Ok (a : A)
| Err (e : error).
Arguments Ok {A} a.
Arguments Err {A} e.

(** ** The plugin SDK: diagnostics *)

Inductive Severity := SevError | SevWarning.

Record Diagnostic := mkDiagnostic {
  diag_Severity : Severity;
  diag_Summary : string;
  diag_Detail : string
}.

Definition Diagnostics := list Diagnostic.

(** [diag.Errorf(format, a...)], after formatting. *)
Definition diag_Errorf (msg : string) : Diagnostics :=
  [ mkDiagnostic SevError msg "" ].

(** [diag.FromErr(err)] for a non-nil [err]. *)
Definition diag_FromErr (err : error) : Diagnostics :=
  [ mkDiagnostic SevError (Error err) "" ].

(** ** The plugin SDK: schemas and [ResourceData] *)

Inductive ValueType := TypeBool | TypeInt | TypeString | TypeList | TypeMap.

(** The [Elem] of a [schema.Schema]: absent, a primitive element schema
    ([&schema.Schema{Type: t}]), or a nested resource (a block) with its own
    field schemas ([&schema.Resource{Schema: fields}]). *)
Inductive SchemaElem (S : Type) :=
| ElemNone
| ElemSchema (t : ValueType)
| ElemResource (fields : gmap string S).
Arguments ElemNone {S}.
Arguments ElemSchema {S} t.
Arguments ElemResource {S} fields.

(** [schema.Schema], with the fields this provider sets. *)
Inductive Schema :=
| mkSchema (type : ValueType) (optional required computed : bool)
           (default : option Value) (elem : SchemaElem Schema).

Definition s_Type (s : Schema) : ValueType :=
  match s with mkSchema t _ _ _ _ _ => t end.
Definition s_Optional (s : Schema) : bool :=
  match s with mkSchema _ o _ _ _ _ => o end.
Definition s_Required (s : Schema) : bool :=
  match s with mkSchema _ _ r _ _ _ => r end.
Definition s_Computed (s : Schema) : bool :=
  match s with mkSchema _ _ _ c _ _ => c end.
Definition s_Default (s : Schema) : option Value :=
  match s with mkSchema _ _ _ _ dv _ => dv end.
Definition s_Elem (s : Schema) : SchemaElem Schema :=
  match s with mkSchema _ _ _ _ _ e => e end.

(** The zero value the SDK returns for an attribute that is not set. *)
Definition zeroValue (t : ValueType) : Value :=
  match t with
  | TypeBool => VBool false
  | TypeInt => VInt 0
  | TypeString => VString ""
  | TypeList => VList []
  | TypeMap => VMap ∅
  end.

(** The SDK decodes primitives weakly: a boolean given where a string is
    declared is rendered as ["1"] or ["0"]. *)
Definition weakDecode (t : ValueType) (v : Value) : Value :=
  match t, v with
  | TypeString, VBool b => VString (if b then "1" else "0")
  | _, _ => v
  end.

(** Reading one primitive field: the configured value, else the schema's
    [Default], else the zero value. *)
Definition readPrimitive (s : Schema) (raw : option Value) : Value :=
  match raw with
  | Some v => weakDecode (s_Type s) v
  | None =>
      match s_Default s with
      | Some dv => weakDecode (s_Type s) dv
      | None => zeroValue (s_Type s)
      end
  end.

(** Reading one block of a nested resource: every declared field is present in
    the resulting [map[string]interface{}]. *)
Definition readObject (fields : gmap string Schema) (raw : Value) : Value :=
  match raw with
  | VMap m => VMap (map_imap (λ k s, Some (readPrimitive s (m !! k))) fields)
  | _ => VMap (map_imap (λ k s, Some (readPrimitive s None)) fields)
  end.

Definition readField (s : Schema) (raw : option Value) : Value :=
  match s_Type s, s_Elem s, raw with
  | TypeList, ElemResource fields, Some (VList blocks) =>
      VList (readObject fields <$> blocks)
  | TypeList, _, Some (VList l) => VList l
  | TypeList, _, _ => VList []
  | TypeMap, _, Some (VMap m) => VMap m
  | TypeMap, _, _ => VMap ∅
  | _, _, _ => readPrimitive s raw
  end.

(** [schema.ResourceData]: the schema it was built for, the resource id and
    the attribute values written so far (configuration or state). *)
Record ResourceData := mkResourceData {
  rd_schema : gmap string Schema;
  rd_id : string;
  rd_attrs : gmap string Value
}.

(** [d.Get(key)]: [None] is Go's [nil], returned for a key outside the schema. *)
Definition d_Get (d : ResourceData) (key : string) : option Value :=
  s ← rd_schema d !! key; Some (readField s (rd_attrs d !! key)).

Definition d_Id (d : ResourceData) : string := rd_id d.

Definition d_SetId (d : ResourceData) (id : string) : ResourceData :=
  mkResourceData (rd_schema d) id (rd_attrs d).

Definition hasPrimType (t : ValueType) (v : Value) : bool :=
  match t, v with
  | TypeBool, VBool _ | TypeInt, VInt _ | TypeString, VString _ => true
  | _, _ => false
  end.

Definition hasType (s : Schema) (v : Value) : bool :=
  match s_Type s, s_Elem s, v with
  | TypeList, ElemSchema t, VList l => forallb (hasPrimType t) l
  | TypeList, _, VList _ => true
  | TypeMap, _, VMap _ => true
  | t, _, _ => hasPrimType t v
  end.

(** [d.Set(key, value)]: the write is refused, and nothing changes, when the
    key is not in the schema or the value does not fit the declared type. *)
Definition d_Set (d : ResourceData) (key : string) (v : Value)
  : ResourceData * option error :=
  match rd_schema d !! key with
  | Some s =>
      if hasType s v
      then (mkResourceData (rd_schema d) (rd_id d) (<[key := v]> (rd_attrs d)), None)
      else (d, Some (errors_New (key +:+ ": value does not match the schema type")))
  | None => (d, Some (errors_New ("Invalid address to set: " +:+ key)))
  end.

(** ** Go standard library: [strings] *)

(** [strings.HasPrefix(s, prefix)]. *)
Fixpoint strings_HasPrefix (s prefix : string) : bool :=
  match prefix, s with
  | EmptyString, _ => true
  | String _ _, EmptyString => false
  | String p prefix', String c s' =>
      if decide (p = c) then strings_HasPrefix s' prefix' else false
  end.

(** [strings.Contains(s, substr)]. *)
Fixpoint strings_Contains (s substr : string) : bool :=
  strings_HasPrefix s substr
  || match s with
     | EmptyString => false
     | String _ s' => strings_Contains s' substr
     end.

(** The left-to-right scan behind [strings.Replace]: [skip] counts the bytes
    of a match that are still to be dropped. *)
Fixpoint replaceFrom (old new : string) (skip : nat) (s : string) : string :=
  match s with
  | EmptyString => EmptyString
  | String c s' =>
      match skip with
      | S k => replaceFrom old new k s'
      | O =>
          if strings_HasPrefix s old
          then new +:+ replaceFrom old new (String.length old - 1) s'
          else String c (replaceFrom old new 0 s')
      end
  end.

(** [strings.Replace(s, old, new, -1)] for a non-empty [old]: every
    non-overlapping occurrence is replaced. *)
Definition strings_ReplaceAll (s old new : string) : string :=
  replaceFrom old new 0 s.

(** [strings.Join(elems, sep)]. *)
Fixpoint strings_Join (elems : list string) (sep : string) : string :=
  match elems with
  | [] => ""
  | [e] => e
  | e :: rest => e +:+ sep +:+ strings_Join rest sep
  end.

(** [strings.Split(s, "/")], as the list in reverse under construction:
    [cur] is the element being read, reversed. *)
Fixpoint splitSlash (s : string) (cur : string) : list string :=
  match s with
  | EmptyString => [String.rev cur]
  | String c s' =>
      if decide (c = "/"%char)
      then String.rev cur :: splitSlash s' ""
      else splitSlash s' (String c cur)
  end.

(** ** Go standard library: [path/filepath] on Unix *)

(** One step of [filepath.Clean] over the path elements kept so far (most
    recent first): empty and ["."] elements vanish, [".."] removes the element
    before it when there is one to remove, is dropped at the root, and is kept
    at the start of a relative path. *)
Definition cleanStep (rooted : bool) (kept : list string) (elem : string)
  : list string :=
  if decide (elem = "") then kept
  else if decide (elem = ".") then kept
  else if decide (elem = "..") then
    match kept with
    | top :: below =>
        if decide (top = "..") then elem :: kept else below
    | [] => if rooted then [] else [elem]
    end
  else elem :: kept.

(** [filepath.Clean(path)]. *)
Definition filepath_Clean (path : string) : string :=
  let rooted := strings_HasPrefix path "/" in
  let kept := rev (fold_left (cleanStep rooted) (splitSlash path "") []) in
  let body := strings_Join kept "/" in
  if rooted then "/" +:+ body
  else if decide (body = "") then "." else body.

(** [filepath.Join(elem...)]: leading empty elements are ignored, the rest is
    joined with the separator and cleaned; all empty gives the empty string. *)
Fixpoint filepath_Join (elem : list string) : string :=
  match elem with
  | [] => ""
  | e :: rest =>
      if decide (e = "") then filepath_Join rest
      else filepath_Clean (strings_Join elem "/")
  end.

(** ** Go standard library: [net/url] *)

(** The fields of [url.URL] the provider reads, and [Opaque]. *)
Record URL := mkURL {
  Scheme : string;
  Opaque : string;
  Host : string;
  Path : string
}.

(** ** Library objects the provider holds but never inspects *)

(** [*rest.Config], [*kubernetes.Clientset] and [*api.Client] are opaque to the
    provider; a handle stands for each. *)
Inductive rest_Config := RestConfigHandle (n : nat).
Inductive kubernetes_Clientset := ClientsetHandle (n : nat).
Inductive api_Client := VaultClientHandle (n : nat).

(** [api.TLSConfig], with the fields the provider fills. *)
Record api_TLSConfig := mkTLSConfig {
  CACert : string;
  ClientCert : string;
  ClientKey : string;
  Insecure : bool
}.

(** [api.Config]: the address, and the TLS settings a successful
    [ConfigureTLS] has installed on it. *)
Record api_Config := mkConfig {
  Address : string;
  appliedTLS : option api_TLSConfig
}.

(** [api.InitRequest] and [api.InitResponse]. *)
Record api_InitRequest := mkInitRequest {
  SecretShares : Z;
  SecretThreshold : Z
}.

Record api_InitResponse := mkInitResponse {
  Keys : list string;
  KeysB64 : list string;
  RootToken : string
}.

(** ** Calls that leave the provider *)

Inductive Event :=
| EvBuildConfigFromFlags (masterUrl kubeconfigPath : string)
| EvNewForConfig (c : rest_Config)
| EvConfigureTLS (t : api_TLSConfig)
| EvNewClient (c : api_Config)
| EvSysInit (c : api_Client) (req : api_InitRequest)
| EvReadFile (filename : string)
| EvLogPrintf (format : string) (v : list string).

(** The outside world as the provider sees it.  The Vault service is
    stateful, so [sys_Init] also receives the calls made so far. *)
Record Collaborators := mkCollaborators {
  os_Getenv : string → string;
  clientcmd_BuildConfigFromFlags : string → string → Result rest_Config;
  kubernetes_NewForConfig : rest_Config → Result kubernetes_Clientset;
  tls_check : api_TLSConfig → option error;
  api_NewClient : api_Config → Result api_Client;
  client_Address : api_Client → string;
  sys_Init : list Event → api_Client → api_InitRequest → Result api_InitResponse;
  url_Parse : string → Result URL;
  ioutil_ReadFile : string → Result string;
  json_Unmarshal : string → Result api_InitResponse
}.

(** ** Go control flow: next statement, [return], or panic *)

Inductive Step (R A : Type) :=
| Next (a : A)
| Return (r : R)
| Panic (msg : string).
Arguments Next {R A} a.
Arguments Return {R A} r.
Arguments Panic {R A} msg.

(** A statement sequence inside a function returning [R]: it extends the
    trace of outside calls and yields a [Step]. *)
Definition Go (R A : Type) : Type := list Event → list Event * Step R A.

Definition go_ret {R A} (a : A) : Go R A := λ tr, (tr, Next a).

Definition go_bind {R A B} (m : Go R A) (f : A → Go R B) : Go R B := λ tr,
  match m tr with
  | (tr', Next a) => f a tr'
  | (tr', Return r) => (tr', Return r)
  | (tr', Panic msg) => (tr', Panic msg)
  end.

Declare Scope go_scope.
Delimit Scope go_scope with go.
Bind Scope go_scope with Go.
Notation "'let!' x ':=' m 'in' k" := (go_bind m (λ x, k))
  (at level 10, x name, m at level 100, k at level 200,
   format "'[v' 'let!'  x  ':='  m  'in' '/' k ']'") : go_scope.
Notation "'do!' m ';;' k" := (go_bind m (λ _, k))
  (at level 10, m at level 99, k at level 200,
   format "'[v' 'do!'  m  ';;' '/' k ']'") : go_scope.
Local Open Scope go_scope.

(** [return r]. *)
Definition go_return {R A} (r : R) : Go R A := λ tr, (tr, Return r).

Definition go_panic {R A} (msg : string) : Go R A := λ tr, (tr, Panic msg).

Definition emit {R} (e : Event) : Go R unit := λ tr, (tr ++ [e], Next tt).

(** How a call ends: with its return value or with a panic. *)
Inductive Outcome (R : Type) :=
| Returned (r : R)
| Panicked (msg : string).
Arguments Returned {R} r.
Arguments Panicked {R} msg.

(** Running a function body from a given trace. *)
Definition call {R} (body : Go R R) (tr : list Event) : list Event * Outcome R :=
  match body tr with
  | (tr', Next r) | (tr', Return r) => (tr', Returned r)
  | (tr', Panic msg) => (tr', Panicked msg)
  end.

(** Type assertions [x.(T)] on an [interface{}]; a failed one panics. *)
Definition assert_string {R} (v : option Value) : Go R string :=
  match v with
  | Some (VString s) => go_ret s
  | _ => go_panic "interface conversion: interface {} is not string"
  end.

Definition assert_bool {R} (v : option Value) : Go R bool :=
  match v with
  | Some (VBool b) => go_ret b
  | _ => go_panic "interface conversion: interface {} is not bool"
  end.

Definition assert_int {R} (v : option Value) : Go R Z :=
  match v with
  | Some (VInt n) => go_ret n
  | _ => go_panic "interface conversion: interface {} is not int"
  end.

Definition assert_slice {R} (v : option Value) : Go R (list Value) :=
  match v with
  | Some (VList l) => go_ret l
  | _ => go_panic "interface conversion: interface {} is not []interface {}"
  end.

Definition assert_map {R} (v : option Value) : Go R (gmap string Value) :=
  match v with
  | Some (VMap m) => go_ret m
  | _ => go_panic "interface conversion: interface {} is not map[string]interface {}"
  end.

(** Dereferencing a pointer that may be nil. *)
Definition deref {R A} (p : option A) : Go R A :=
  match p with
  | Some a => go_ret a
  | None => go_panic "invalid memory address or nil pointer dereference"
  end.

(** ** [provider.go]: constants, types and schema *)

Definition envVaultAddr : string := "VAULT_ADDR".
Definition provider : string := "vaultoperator".
Definition resInit : string := provider +:+ "_init".
Definition argVaultUrl : string := "vault_url".
Definition argVaultAddr : string := "vault_addr".
Definition argRequestHeaders : string := "request_headers".
Definition argKubeConfig : string := "kube_config".
Definition argKubeConfigPath : string := "path".
Definition argNameSpace : string := "namespace".
Definition argServiceName : string := "service".
Definition argLocalPort : string := "local_port".
Definition argRemotePort : string := "remote_port".
Definition argUseTLS : string := "use_tls".
Definition argCaCert : string := "ca_cert".
Definition argClientCert : string := "client_cert".
Definition argClientKey : string := "client_key".
Definition argInsecureTLS : string := "use_insecure_tls".

(** The constants of [resource_init.go]. *)
Definition argSecretShares : string := "secret_shares".
Definition argSecretThreshold : string := "secret_threshold".
Definition argRootToken : string := "root_token".
Definition argKeys : string := "keys".
Definition argKeysBase64 : string := "keys_base64".

Record kubeConn := mkKubeConn {
  configPath : string;
  nameSpace : string;
  serviceName : string;
  localPort : string;
  remotePort : string;
  kubeConfig : option rest_Config;
  kubeClient : option kubernetes_Clientset
}.

Record tlsConfig := mkTlsConfig {
  caCert : string;
  clientCert : string;
  clientKey : string;
  insecure : bool
}.

(** The struct fields [kubeConn] and [tlsConfig] of [apiClient] are spelled
    [a_kubeConn] and [a_tlsConfig]: the plain names are the struct types. *)
Record apiClient := mkApiClient {
  client : option api_Client;
  url : string;
  a_kubeConn : kubeConn;
  tlsAdded : bool;
  a_tlsConfig : tlsConfig
}.

(** [&apiClient{}]: every field at its zero value. *)
Definition apiClient_zero : apiClient :=
  mkApiClient None "" (mkKubeConn "" "" "" "" "" None None) false
              (mkTlsConfig "" "" "" false).

(** Field assignments [a.f = v] and [a.kubeConn.f = v]. *)
Definition set_client (a : apiClient) (v : option api_Client) : apiClient :=
  mkApiClient v (url a) (a_kubeConn a) (tlsAdded a) (a_tlsConfig a).
Definition set_url (a : apiClient) (v : string) : apiClient :=
  mkApiClient (client a) v (a_kubeConn a) (tlsAdded a) (a_tlsConfig a).
Definition set_kubeConn (a : apiClient) (v : kubeConn) : apiClient :=
  mkApiClient (client a) (url a) v (tlsAdded a) (a_tlsConfig a).
Definition set_tlsAdded (a : apiClient) (v : bool) : apiClient :=
  mkApiClient (client a) (url a) (a_kubeConn a) v (a_tlsConfig a).
Definition set_tlsConfig (a : apiClient) (v : tlsConfig) : apiClient :=
  mkApiClient (client a) (url a) (a_kubeConn a) (tlsAdded a) v.

Definition set_kubeConfig (a : apiClient) (v : option rest_Config) : apiClient :=
  let k := a_kubeConn a in
  set_kubeConn a (mkKubeConn (configPath k) (nameSpace k) (serviceName k)
                             (localPort k) (remotePort k) v (kubeClient k)).
Definition set_kubeClient (a : apiClient) (v : option kubernetes_Clientset) : apiClient :=
  let k := a_kubeConn a in
  set_kubeConn a (mkKubeConn (configPath k) (nameSpace k) (serviceName k)
                             (localPort k) (remotePort k) (kubeConfig k) v).
Definition set_nameSpace (a : apiClient) (v : string) : apiClient :=
  let k := a_kubeConn a in
  set_kubeConn a (mkKubeConn (configPath k) v (serviceName k)
                             (localPort k) (remotePort k) (kubeConfig k) (kubeClient k)).
Definition set_serviceName (a : apiClient) (v : string) : apiClient :=
  let k := a_kubeConn a in
  set_kubeConn a (mkKubeConn (configPath k) (nameSpace k) v
                             (localPort k) (remotePort k) (kubeConfig k) (kubeClient k)).
Definition set_localPort (a : apiClient) (v : string) : apiClient :=
  let k := a_kubeConn a in
  set_kubeConn a (mkKubeConn (configPath k) (nameSpace k) (serviceName k)
                             v (remotePort k) (kubeConfig k) (kubeClient k)).
Definition set_remotePort (a : apiClient) (v : string) : apiClient :=
  let k := a_kubeConn a in
  set_kubeConn a (mkKubeConn (configPath k) (nameSpace k) (serviceName k)
                             (localPort k) v (kubeConfig k) (kubeClient k)).

(** An optional attribute without element schema. *)
Definition optionalAttr (t : ValueType) (default : option Value) : Schema :=
  mkSchema t true false false default ElemNone.

(** The [Elem] of [kube_config]: the fields of one tunnel block. *)
Definition kubeConfigFields : gmap string Schema :=
  {[ argKubeConfigPath := optionalAttr TypeString (Some (VString "~/.kube/config"));
     argNameSpace := optionalAttr TypeString None;
     argServiceName := optionalAttr TypeString None;
     argLocalPort := optionalAttr TypeString (Some (VString "8200"));
     argRemotePort := optionalAttr TypeString (Some (VString "8200"));
     argUseTLS := optionalAttr TypeBool (Some (VBool false));
     argCaCert := optionalAttr TypeString (Some (VBool false));
     argClientCert := optionalAttr TypeString (Some (VBool false));
     argClientKey := optionalAttr TypeString (Some (VBool false));
     argInsecureTLS := optionalAttr TypeBool (Some (VBool true)) ]}.

Definition providerSchema : gmap string Schema :=
  {[ argVaultUrl := optionalAttr TypeString None;
     argVaultAddr := optionalAttr TypeString None;
     argRequestHeaders :=
       mkSchema TypeMap true false false None (ElemSchema TypeString);
     argKubeConfig :=
       mkSchema TypeList true false false None (ElemResource kubeConfigFields) ]}.

(** The [Schema] of [resourceInit()]. *)
Definition resourceInitSchema : gmap string Schema :=
  {[ argSecretShares := mkSchema TypeInt false true false None ElemNone;
     argSecretThreshold := mkSchema TypeInt false true false None ElemNone;
     argRootToken := mkSchema TypeString true false true None ElemNone;
     argKeys := mkSchema TypeList true false true None (ElemSchema TypeString);
     argKeysBase64 :=
       mkSchema TypeList true false true None (ElemSchema TypeString) ]}.

Section Provider.
Context (C : Collaborators).

(** *** Outside calls, each leaving its mark in the trace *)

Definition BuildConfigFromFlags {R} (masterUrl kubeconfigPath : string)
  : Go R (Result rest_Config) :=
  do! emit (EvBuildConfigFromFlags masterUrl kubeconfigPath) ;;
  go_ret (clientcmd_BuildConfigFromFlags C masterUrl kubeconfigPath).

Definition NewForConfig {R} (c : rest_Config) : Go R (Result kubernetes_Clientset) :=
  do! emit (EvNewForConfig c) ;;
  go_ret (kubernetes_NewForConfig C c).

(** [c.ConfigureTLS(t)]: on success the configuration carries [t]. *)
Definition ConfigureTLS {R} (c : api_Config) (t : api_TLSConfig)
  : Go R (Result api_Config) :=
  do! emit (EvConfigureTLS t) ;;
  go_ret (match tls_check C t with
        | Some err => Err err
        | None => Ok (mkConfig (Address c) (Some t))
        end).

Definition NewClient {R} (c : api_Config) : Go R (Result api_Client) :=
  do! emit (EvNewClient c) ;;
  go_ret (api_NewClient C c).

(** [c.Sys().Init(req)]; the service sees the calls made before this one. *)
Definition Sys_Init {R} (c : api_Client) (req : api_InitRequest)
  : Go R (Result api_InitResponse) :=
  λ tr, (tr ++ [EvSysInit c req], Next (sys_Init C tr c req)).

Definition ReadFile {R} (filename : string) : Go R (Result string) :=
  do! emit (EvReadFile filename) ;;
  go_ret (ioutil_ReadFile C filename).

(** *** [provider.go] *)

Definition logError {R} (fmt : string) (v : list string) : Go R unit :=
  emit (EvLogPrintf ("[ERROR] " +:+ fmt) v).

Definition logInfo {R} (fmt : string) (v : list string) : Go R unit :=
  emit (EvLogPrintf ("[INFO] " +:+ fmt) v).

Definition logDebug {R} (fmt : string) (v : list string) : Go R unit :=
  emit (EvLogPrintf ("[DEBUG] " +:+ fmt) v).

Definition homeDir : Result string :=
  let h := os_Getenv C "HOME" in
  if decide (h ≠ "") then Ok h
  else Err (errors_New "unable to get HOME directory").

(** What [configure] returns: [(interface{}, diag.Diagnostics)]. *)
Definition ConfigureResult : Type := option apiClient * Diagnostics.

(** The function [configure(version, p)] returns, applied to [d]. *)
Definition configure (version : string) (d : ResourceData)
  : Go ConfigureResult ConfigureResult :=
  let a := apiClient_zero in
  let! k := assert_slice (d_Get d argKubeConfig) in
  let! a :=
    (if decide (0 < length k)%nat then (* len(k) > 0 *)
       let! kubeConn := assert_map (k !! 0%nat) in
       let! path := assert_string (kubeConn !! argKubeConfigPath) in
       let! path :=
         (if strings_Contains path "~" then
            match homeDir with
            | Err err => go_return (None, diag_FromErr err)
            | Ok homeDir => go_ret (strings_ReplaceAll path "~" homeDir)
            end
          else go_ret path) in
       (* Create Kubernetes *rest.Config *)
       let! r := BuildConfigFromFlags "" path in
       let! kubeConfig :=
         match r with
         | Err err => go_return (None, diag_FromErr err)
         | Ok kubeConfig => go_ret kubeConfig
         end in
       let a := set_kubeConfig a (Some kubeConfig) in
       (* Create Kubernetes *kubernetes.Clientset *)
       let! r := NewForConfig kubeConfig in
       let! kubeClient :=
         match r with
         | Err err => go_return (None, diag_FromErr err)
         | Ok kubeClient => go_ret kubeClient
         end in
       let a := set_kubeClient a (Some kubeClient) in
       let! namespace := assert_string (kubeConn !! argNameSpace) in
       let! a :=
         (if decide (namespace ≠ "") then go_ret (set_nameSpace a namespace)
          else go_return (None, diag_Errorf "Vault namespace is not specified")) in
       let! service := assert_string (kubeConn !! argServiceName) in
       let! a :=
         (if decide (service ≠ "") then go_ret (set_serviceName a service)
          else go_return (None, diag_Errorf "Vault service name is not specified")) in
       let! localPort := assert_string (kubeConn !! argLocalPort) in
       let a := set_localPort a localPort in
       let! remotePort := assert_string (kubeConn !! argRemotePort) in
       let a := set_remotePort a remotePort in
       let! useTLS := assert_bool (kubeConn !! argUseTLS) in
       if useTLS then
         let a := set_url a ("https://localhost:" +:+ localPort) in
         let a := set_tlsConfig a (mkTlsConfig "" "" "" false) in
         go_ret (set_tlsAdded a true)
       else
         let a := set_url a ("http://localhost:" +:+ localPort) in
         go_ret (set_tlsAdded a false)
     else
       let! u := assert_string (d_Get d argVaultAddr) in
       if decide (u ≠ "") then
         go_ret (set_tlsAdded (set_url a u) false)
       else
         let! u := assert_string (d_Get d argVaultUrl) in
         if decide (u ≠ "") then
           go_ret (set_tlsAdded (set_url a u) false)
         else
           go_ret (set_tlsAdded (set_url a (os_Getenv C envVaultAddr)) false)) in
  if decide (url a = "") then
    go_return (None, diag_Errorf ("argument '" +:+ argVaultUrl +:+
                 "' is required, or set VAULT_ADDR environment variable"))
  else
    let vaultConfig := mkConfig (url a) None in
    let! vaultConfig :=
      (if tlsAdded a then
         let! r := ConfigureTLS vaultConfig
                     (mkTLSConfig (caCert (a_tlsConfig a)) (clientCert (a_tlsConfig a))
                                  (clientKey (a_tlsConfig a)) (insecure (a_tlsConfig a))) in
         match r with
         | Err err =>
             do! logError "failed to configure Vault API client with TLS: %v" [Error err] ;;
             go_return (None, diag_FromErr err)
         | Ok vaultConfig => go_ret vaultConfig
         end
       else go_ret vaultConfig) in
    let! r := NewClient vaultConfig in
    match r with
    | Err err =>
        do! logError "failed to create Vault API client: %v" [Error err] ;;
        go_return (None, diag_FromErr err)
    | Ok c => go_return (Some (set_client a (Some c)), [])
    end.

(** *** [resource_init.go] *)

(** [updateState]: the errors of [d.Set] are dropped, as in the source. *)
Definition updateState (d : ResourceData) (id : string) (res : api_InitResponse)
  : ResourceData :=
  let d := d_SetId d id in
  let d := (d_Set d argRootToken (VString (RootToken res))).1 in
  let d := (d_Set d argKeys (VList (VString <$> Keys res))).1 in
  let d := (d_Set d argKeysBase64 (VList (VString <$> KeysB64 res))).1 in
  d.

(** What a lifecycle hook leaves behind: the resource data it was given a
    pointer to, and its [diag.Diagnostics].  [meta] is the [*apiClient] that
    [configure] returned. *)
Definition HookResult : Type := ResourceData * Diagnostics.

Definition resourceInitCreate (d : ResourceData) (meta : apiClient)
  : Go HookResult HookResult :=
  (* use the meta value to retrieve your client from the provider configure method *)
  let client_ := meta in
  let! shares := assert_int (d_Get d argSecretShares) in
  let! threshold := assert_int (d_Get d argSecretThreshold) in
  let req := mkInitRequest shares threshold in
  let! c := deref (client client_) in
  let! r := Sys_Init c req in
  match r with
  | Err err =>
      do! logError "failed to initialize Vault: %v" [Error err] ;;
      go_return (d, diag_FromErr err)
  | Ok res =>
      let d := updateState d (client_Address C c) res in
      go_return (d, [])
  end.

Definition resourceInitRead (d : ResourceData) (meta : apiClient)
  : Go HookResult HookResult :=
  go_return (d, diag_Errorf "not implemented").

Definition resourceInitUpdate (d : ResourceData) (meta : apiClient)
  : Go HookResult HookResult :=
  go_return (d, diag_Errorf "not implemented").

Definition resourceInitDelete (d : ResourceData) (meta : apiClient)
  : Go HookResult HookResult :=
  go_return (d, diag_Errorf "not implemented").

(** What the importer leaves behind: the resource data it was given a pointer
    to, and its [([]*schema.ResourceData, error)]. *)
Definition ImporterResult : Type := ResourceData * Result (list ResourceData).

Definition resourceInitImporter (d : ResourceData) (meta : apiClient)
  : Go ImporterResult ImporterResult :=
  let client_ := meta in
  (* Id should be a file scheme URL: file://path_to_file.json *)
  let id := d_Id d in
  match url_Parse C id with
  | Err err =>
      do! logError "failed parsing id url %v" [Error err] ;;
      go_return (d, Err err)
  | Ok u =>
      if decide (Scheme u ≠ "file") then
        do! logError "unsupported scheme" [] ;;
        go_return (d, Err (errors_New "unsupported scheme"))
      else
        let! r := ReadFile (filepath_Join [Host u; Path u]) in
        match r with
        | Err err =>
            do! logError "failed reading file %v" [Error err] ;;
            go_return (d, Err err)
        | Ok fc =>
            match json_Unmarshal C fc with
            | Err err =>
                do! logError "failed unmarshalling json: %v" [Error err] ;;
                go_return (d, Err err)
            | Ok initResponse =>
                let! c := deref (client client_) in
                let d := updateState d (client_Address C c) initResponse in
                go_return (d, Ok [d])
            end
        end
  end.

(** [schema.Resource], with the hooks and schema [resourceInit] fills. *)
Record schema_Resource := mkResource {
  Description : string;
  CreateContext : ResourceData → apiClient → Go HookResult HookResult;
  ReadContext : ResourceData → apiClient → Go HookResult HookResult;
  UpdateContext : ResourceData → apiClient → Go HookResult HookResult;
  DeleteContext : ResourceData → apiClient → Go HookResult HookResult;
  Importer_StateContext :
    ResourceData → apiClient → Go ImporterResult ImporterResult;
  res_Schema : gmap string Schema
}.

Definition resourceInit : schema_Resource :=
  {| Description := "Resource for vault operator init";
     CreateContext := resourceInitCreate;
     ReadContext := resourceInitRead;
     UpdateContext := resourceInitUpdate;
     DeleteContext := resourceInitDelete;
     Importer_StateContext := resourceInitImporter;
     res_Schema := resourceInitSchema |}.

End Provider.

(** ** Provider configurations as the user writes them *)

(** One [kube_config] block; [None] is an attribute left out. *)
Record KubeConfigBlock := mkKubeConfigBlock {
  kc_path : option string;
  kc_namespace : option string;
  kc_service : option string;
  kc_local_port : option string;
  kc_remote_port : option string;
  kc_use_tls : option bool;
  kc_ca_cert : option string;
  kc_client_cert : option string;
  kc_client_key : option string;
  kc_use_insecure_tls : option bool
}.

Record ProviderConfig := mkProviderConfig {
  pc_vault_url : option string;
  pc_vault_addr : option string;
  pc_request_headers : option (gmap string string);
  pc_kube_config : list KubeConfigBlock
}.

(** An attribute is stored only when it was written. *)
Definition optAttr (key : string) (v : option Value) (m : gmap string Value)
  : gmap string Value :=
  match v with
  | Some x => <[key := x]> m
  | None => m
  end.

Definition blockAttrs (b : KubeConfigBlock) : gmap string Value :=
  optAttr argKubeConfigPath (VString <$> kc_path b)
  (optAttr argNameSpace (VString <$> kc_namespace b)
  (optAttr argServiceName (VString <$> kc_service b)
  (optAttr argLocalPort (VString <$> kc_local_port b)
  (optAttr argRemotePort (VString <$> kc_remote_port b)
  (optAttr argUseTLS (VBool <$> kc_use_tls b)
  (optAttr argCaCert (VString <$> kc_ca_cert b)
  (optAttr argClientCert (VString <$> kc_client_cert b)
  (optAttr argClientKey (VString <$> kc_client_key b)
  (optAttr argInsecureTLS (VBool <$> kc_use_insecure_tls b) ∅))))))))).

Definition configAttrs (pc : ProviderConfig) : gmap string Value :=
  optAttr argVaultUrl (VString <$> pc_vault_url pc)
  (optAttr argVaultAddr (VString <$> pc_vault_addr pc)
  (optAttr argRequestHeaders
     ((λ h : gmap string string, VMap (VString <$> h)) <$> pc_request_headers pc)
  (optAttr argKubeConfig
     (match pc_kube_config pc with
      | [] => None
      | blocks => Some (VList ((λ b, VMap (blockAttrs b)) <$> blocks))
      end) ∅))).

(** The [*schema.ResourceData] the SDK passes to [configure]. *)
Definition providerData (pc : ProviderConfig) : ResourceData :=
  mkResourceData providerSchema "" (configAttrs pc).

(** One block as [configure] finds it in [k[0]]: every declared field, read
    through the schema. *)
Definition readBlock (b : KubeConfigBlock) : gmap string Value :=
  map_imap (λ k s, Some (readPrimitive s (blockAttrs b !! k))) kubeConfigFields.

(** The values [configure] reads from a block, defaults applied. *)
Definition block_path (b : KubeConfigBlock) : string :=
  default "~/.kube/config" (kc_path b).
Definition block_namespace (b : KubeConfigBlock) : string :=
  default "" (kc_namespace b).
Definition block_service (b : KubeConfigBlock) : string :=
  default "" (kc_service b).
Definition block_local_port (b : KubeConfigBlock) : string :=
  default "8200" (kc_local_port b).
Definition block_remote_port (b : KubeConfigBlock) : string :=
  default "8200" (kc_remote_port b).
Definition block_use_tls (b : KubeConfigBlock) : bool :=
  default false (kc_use_tls b).
Definition block_use_insecure_tls (b : KubeConfigBlock) : bool :=
  default true (kc_use_insecure_tls b).

(** The TLS settings the design document asks to carry forward, for a block
    that writes all three paths: the configured CA certificate, client
    certificate and client key, and the configured insecure flag. *)
Definition configuredTLS (b : KubeConfigBlock) : option api_TLSConfig :=
  ca ← kc_ca_cert b;
  cert ← kc_client_cert b;
  key ← kc_client_key b;
  Some (mkTLSConfig ca cert key (block_use_insecure_tls b)).

(** The first three steps of the design document's Tunnel Builder: expand
    [~] in the configuration path, build the cluster configuration from it,
    build the cluster client from that. *)
Definition expandHome (C : Collaborators) (path : string) : Result string :=
  if strings_Contains path "~" then
    match homeDir C with
    | Err err => Err err
    | Ok home => Ok (strings_ReplaceAll path "~" home)
    end
  else Ok path.

Definition buildTunnel (C : Collaborators) (b : KubeConfigBlock)
  : Result (rest_Config * kubernetes_Clientset) :=
  match expandHome C (block_path b) with
  | Err err => Err err
  | Ok path =>
      match clientcmd_BuildConfigFromFlags C "" path with
      | Err err => Err err
      | Ok kubeConfig =>
          match kubernetes_NewForConfig C kubeConfig with
          | Err err => Err err
          | Ok kubeClient => Ok (kubeConfig, kubeClient)
          end
      end
  end.

(** The address the design document asks of a tunnelled connection:
    [scheme://localhost:<local_port>], [https] when TLS is requested. *)
Definition tunnelAddress (use_tls : bool) (local_port : string) : string :=
  (if use_tls then "https" else "http") +:+ "://localhost:" +:+ local_port.

(** The priority order the design document gives for a direct connection. *)
Definition directAddress (vault_addr vault_url env_default : string) : string :=
  if decide (vault_addr ≠ "") then vault_addr
  else if decide (vault_url ≠ "") then vault_url
  else env_default.

(** ** The earlier revision of [provider.go]

    The source tree holds [provider.go] twice.  The later revision, with the
    TLS attributes, is the one embedded above; the earlier one has no TLS
    attribute in its schema and no TLS field in [apiClient], and its tunnel
    address is always [http].  It is embedded here. *)
Module Legacy.

Record apiClient := mkApiClient {
  client : option api_Client;
  url : string;
  a_kubeConn : kubeConn
}.

Definition apiClient_zero : apiClient :=
  mkApiClient None "" (mkKubeConn "" "" "" "" "" None None).

Definition set_client (a : apiClient) (v : option api_Client) : apiClient :=
  mkApiClient v (url a) (a_kubeConn a).
Definition set_url (a : apiClient) (v : string) : apiClient :=
  mkApiClient (client a) v (a_kubeConn a).
Definition set_kubeConn (a : apiClient) (v : kubeConn) : apiClient :=
  mkApiClient (client a) (url a) v.

Definition set_kubeConfig (a : apiClient) (v : option rest_Config) : apiClient :=
  let k := a_kubeConn a in
  set_kubeConn a (mkKubeConn (configPath k) (nameSpace k) (serviceName k)
                             (localPort k) (remotePort k) v (kubeClient k)).
Definition set_kubeClient (a : apiClient) (v : option kubernetes_Clientset) : apiClient :=
  let k := a_kubeConn a in
  set_kubeConn a (mkKubeConn (configPath k) (nameSpace k) (serviceName k)
                             (localPort k) (remotePort k) (kubeConfig k) v).
Definition set_nameSpace (a : apiClient) (v : string) : apiClient :=
  let k := a_kubeConn a in
  set_kubeConn a (mkKubeConn (configPath k) v (serviceName k)
                             (localPort k) (remotePort k) (kubeConfig k) (kubeClient k)).
Definition set_serviceName (a : apiClient) (v : string) : apiClient :=
  let k := a_kubeConn a in
  set_kubeConn a (mkKubeConn (configPath k) (nameSpace k) v
                             (localPort k) (remotePort k) (kubeConfig k) (kubeClient k)).
Definition set_localPort (a : apiClient) (v : string) : apiClient :=
  let k := a_kubeConn a in
  set_kubeConn a (mkKubeConn (configPath k) (nameSpace k) (serviceName k)
                             v (remotePort k) (kubeConfig k) (kubeClient k)).
Definition set_remotePort (a : apiClient) (v : string) : apiClient :=
  let k := a_kubeConn a in
  set_kubeConn a (mkKubeConn (configPath k) (nameSpace k) (serviceName k)
                             (localPort k) v (kubeConfig k) (kubeClient k)).

Definition kubeConfigFields : gmap string Schema :=
  {[ argKubeConfigPath := optionalAttr TypeString (Some (VString "~/.kube/config"));
     argNameSpace := optionalAttr TypeString None;
     argServiceName := optionalAttr TypeString None;
     argLocalPort := optionalAttr TypeString (Some (VString "8200"));
     argRemotePort := optionalAttr TypeString (Some (VString "8200")) ]}.

Definition providerSchema : gmap string Schema :=
  {[ argVaultUrl := optionalAttr TypeString None;
     argVaultAddr := optionalAttr TypeString None;
     argRequestHeaders :=
       mkSchema TypeMap true false false None (ElemSchema TypeString);
     argKubeConfig :=
       mkSchema TypeList true false false None (ElemResource kubeConfigFields) ]}.

Definition ConfigureResult : Type := option apiClient * Diagnostics.

Definition configure (C : Collaborators) (version : string) (d : ResourceData)
  : Go ConfigureResult ConfigureResult :=
  let a := apiClient_zero in
  let! k := assert_slice (d_Get d argKubeConfig) in
  let! a :=
    (if decide (0 < length k)%nat then (* len(k) > 0 *)
       let! kubeConn := assert_map (k !! 0%nat) in
       let! path := assert_string (kubeConn !! argKubeConfigPath) in
       let! path :=
         (if strings_Contains path "~" then
            match homeDir C with
            | Err err => go_return (None, diag_FromErr err)
            | Ok homeDir => go_ret (strings_ReplaceAll path "~" homeDir)
            end
          else go_ret path) in
       (* Create Kubernetes *rest.Config *)
       let! r := BuildConfigFromFlags C "" path in
       let! kubeConfig :=
         match r with
         | Err err => go_return (None, diag_FromErr err)
         | Ok kubeConfig => go_ret kubeConfig
         end in
       let a := set_kubeConfig a (Some kubeConfig) in
       (* Create Kubernetes *kubernetes.Clientset *)
       let! r := NewForConfig C kubeConfig in
       let! kubeClient :=
         match r with
         | Err err => go_return (None, diag_FromErr err)
         | Ok kubeClient => go_ret kubeClient
         end in
       let a := set_kubeClient a (Some kubeClient) in
       let! namespace := assert_string (kubeConn !! argNameSpace) in
       let! a :=
         (if decide (namespace ≠ "") then go_ret (set_nameSpace a namespace)
          else go_return (None, diag_Errorf "Vault namespace is not specified")) in
       let! service := assert_string (kubeConn !! argServiceName) in
       let! a :=
         (if decide (service ≠ "") then go_ret (set_serviceName a service)
          else go_return (None, diag_Errorf "Vault service name is not specified")) in
       let! localPort := assert_string (kubeConn !! argLocalPort) in
       let a := set_localPort a localPort in
       let! remotePort := assert_string (kubeConn !! argRemotePort) in
       let a := set_remotePort a remotePort in
       go_ret (set_url a ("http://localhost:" +:+ localPort))
     else
       let! u := assert_string (d_Get d argVaultAddr) in
       if decide (u ≠ "") then
         go_ret (set_url a u)
       else
         let! u := assert_string (d_Get d argVaultUrl) in
         if decide (u ≠ "") then
           go_ret (set_url a u)
         else
           go_ret (set_url a (os_Getenv C envVaultAddr))) in
  if decide (url a = "") then
    go_return (None, diag_Errorf ("argument '" +:+ argVaultUrl +:+
                 "' is required, or set VAULT_ADDR environment variable"))
  else
    let! r := NewClient C (mkConfig (url a) None) in
    match r with
    | Err err =>
        do! logError "failed to create Vault API client: %v" [Error err] ;;
        go_return (None, diag_FromErr err)
    | Ok c => go_return (Some (set_client a (Some c)), [])
    end.

(** The TLS attributes are not in this revision's schema, so a configuration
    cannot carry them. *)
Definition blockAttrs (b : KubeConfigBlock) : gmap string Value :=
  optAttr argKubeConfigPath (VString <$> kc_path b)
  (optAttr argNameSpace (VString <$> kc_namespace b)
  (optAttr argServiceName (VString <$> kc_service b)
  (optAttr argLocalPort (VString <$> kc_local_port b)
  (optAttr argRemotePort (VString <$> kc_remote_port b) ∅)))).

Definition configAttrs (pc : ProviderConfig) : gmap string Value :=
  optAttr argVaultUrl (VString <$> pc_vault_url pc)
  (optAttr argVaultAddr (VString <$> pc_vault_addr pc)
  (optAttr argRequestHeaders
     ((λ h : gmap string string, VMap (VString <$> h)) <$> pc_request_headers pc)
  (optAttr argKubeConfig
     (match pc_kube_config pc with
      | [] => None
      | blocks => Some (VList ((λ b, VMap (blockAttrs b)) <$> blocks))
      end) ∅))).

Definition providerData (pc : ProviderConfig) : ResourceData :=
  mkResourceData providerSchema "" (configAttrs pc).

Definition readBlock (b : KubeConfigBlock) : gmap string Value :=
  map_imap (λ k s, Some (readPrimitive s (blockAttrs b !! k))) kubeConfigFields.

End Legacy.

(** What the later revision's handle and result look like to the earlier
    one: the TLS fields are dropped. *)
Definition forgetTLS (a : apiClient) : Legacy.apiClient :=
  Legacy.mkApiClient (client a) (url a) (a_kubeConn a).

Definition forgetTLS_run (run : list Event * Outcome ConfigureResult)
  : list Event * Outcome Legacy.ConfigureResult :=
  (run.1,
   match run.2 with
   | Returned (a, ds) => Returned (forgetTLS <$> a, ds)
   | Panicked msg => Panicked msg
   end).

(** ** Reading traces *)

(** The files read, in order. *)
Definition filesRead (tr : list Event) : list string :=
  omap (λ e, match e with EvReadFile f => Some f | _ => None end) tr.

(** The TLS settings handed to [ConfigureTLS], in order. *)
Definition tlsApplied (tr : list Event) : list api_TLSConfig :=
  omap (λ e, match e with EvConfigureTLS t => Some t | _ => None end) tr.

(** The configurations handed to [api.NewClient], in order. *)
Definition clientsBuilt (tr : list Event) : list api_Config :=
  omap (λ e, match e with EvNewClient c => Some c | _ => None end) tr.

(** The initialize requests sent, in order. *)
Definition initsSent (tr : list Event) : list api_InitRequest :=
  omap (λ e, match e with EvSysInit _ r => Some r | _ => None end) tr.

(** ** A reference model of [url.Parse] for plain hierarchical URLs

    Go's parser on raw URLs that carry no fragment, query, escape, user info,
    port or bracketed host, and no control bytes.  On any other input the
    model gives no answer ([None]). *)

Definition isLetter (c : ascii) : bool :=
  let n := nat_of_ascii c in
  ((97 <=? n)%nat && (n <=? 122)%nat) || ((65 <=? n)%nat && (n <=? 90)%nat).

Definition isSchemeMark (c : ascii) : bool :=
  let n := nat_of_ascii c in
  ((48 <=? n)%nat && (n <=? 57)%nat)
  || bool_decide (c = "+"%char) || bool_decide (c = "-"%char)
  || bool_decide (c = "."%char).

Definition toLower (c : ascii) : ascii :=
  let n := nat_of_ascii c in
  if ((65 <=? n)%nat && (n <=? 90)%nat) then ascii_of_nat (n + 32) else c.

Fixpoint strings_ToLower (s : string) : string :=
  match s with
  | EmptyString => EmptyString
  | String c s' => String (toLower c) (strings_ToLower s')
  end.

(** The loop of [getScheme]: [first] is [i == 0], [seen] the bytes passed so
    far (reversed), [rawURL] the whole input. *)
Fixpoint getSchemeLoop (first : bool) (seen s rawURL : string)
  : Result (string * string) :=
  match s with
  | EmptyString => Ok ("", rawURL)
  | String c s' =>
      if isLetter c then getSchemeLoop false (String c seen) s' rawURL
      else if isSchemeMark c then
        if first then Ok ("", rawURL)
        else getSchemeLoop false (String c seen) s' rawURL
      else if decide (c = ":"%char) then
        if first then Err (errors_New "missing protocol scheme")
        else Ok (String.rev seen, s')
      else Ok ("", rawURL)
  end.

Definition getScheme (rawURL : string) : Result (string * string) :=
  getSchemeLoop true "" rawURL rawURL.

(** [authority[:i], authority[i:]] at the first ["/"], if any. *)
Fixpoint cutAtSlash (s : string) : string * string :=
  match s with
  | EmptyString => ("", "")
  | String c s' =>
      if decide (c = "/"%char) then ("", s)
      else let '(before, rest) := cutAtSlash s' in (String c before, rest)
  end.

Definition isPlainByte (c : ascii) : bool :=
  let n := nat_of_ascii c in
  (32 <=? n)%nat && (n <? 127)%nat
  && negb (bool_decide (c = "#"%char)) && negb (bool_decide (c = "?"%char))
  && negb (bool_decide (c = "%"%char)) && negb (bool_decide (c = "@"%char))
  && negb (bool_decide (c = "["%char)) && negb (bool_decide (c = "]"%char)).

Fixpoint allBytes (p : ascii → bool) (s : string) : bool :=
  match s with
  | EmptyString => true
  | String c s' => p c && allBytes p s'
  end.

Definition net_url_Parse (rawURL : string) : option (Result URL) :=
  if negb (allBytes isPlainByte rawURL) then None
  else if decide (rawURL = "*") then Some (Ok (mkURL "" "" "" "*"))
  else
    match getScheme rawURL with
    | Err err => Some (Err err)
    | Ok (scheme, rest) =>
        let scheme := strings_ToLower scheme in
        if negb (strings_HasPrefix rest "/") then
          if decide (scheme ≠ "") then Some (Ok (mkURL scheme rest "" ""))
          else if strings_Contains (cutAtSlash rest).1 ":" then
            Some (Err (errors_New "first path segment in URL cannot contain colon"))
          else Some (Ok (mkURL scheme "" "" rest))
        else if (bool_decide (scheme ≠ "") || negb (strings_HasPrefix rest "///"))
                && strings_HasPrefix rest "//" then
          let '(authority, rest) :=
            cutAtSlash (String.substring 2 (String.length rest - 2) rest) in
          if strings_Contains authority ":" then None
          else Some (Ok (mkURL scheme "" authority rest))
        else Some (Ok (mkURL scheme "" "" rest))
    end.

(** ** A small world to run the provider in *)

Definition quote : string := String (ascii_of_nat 34) "".

(** The import file of the design document's example. *)
Definition exampleInitJson : string :=
  "{" +:+ quote +:+ "keys" +:+ quote +:+ ":[" +:+ quote +:+ "k1" +:+ quote
  +:+ "]," +:+ quote +:+ "keys_base64" +:+ quote +:+ ":[" +:+ quote +:+ "a2k="
  +:+ quote +:+ "]," +:+ quote +:+ "root_token" +:+ quote +:+ ":" +:+ quote
  +:+ "t1" +:+ quote +:+ "}".

Definition exampleInitResponse : api_InitResponse :=
  mkInitResponse ["k1"] ["a2k="] "t1".

Definition hasSysInit (tr : list Event) : bool :=
  existsb (λ e, match e with EvSysInit _ _ => true | _ => false end) tr.

(** A world with a home directory, a readable Kubernetes configuration, one
    import file at [/tmp/x.json], and one Vault at [http://vault.example:8200]
    that can be initialized once.  [json_Unmarshal] knows the one file;
    [url_Parse] is the reference model. *)
Definition demoWorld (home vaultAddrEnv : string) : Collaborators :=
  {| os_Getenv := λ name,
       if decide (name = "HOME") then home
       else if decide (name = envVaultAddr) then vaultAddrEnv
       else "";
     clientcmd_BuildConfigFromFlags := λ _ _, Ok (RestConfigHandle 0);
     kubernetes_NewForConfig := λ _, Ok (ClientsetHandle 0);
     tls_check := λ _, None;
     api_NewClient := λ c,
       if decide (Address c = "") then Err (errors_New "empty address")
       else Ok (VaultClientHandle 0);
     client_Address := λ _, "http://vault.example:8200";
     sys_Init := λ tr _ _,
       if hasSysInit tr then Err (errors_New "Vault is already initialized")
       else Ok exampleInitResponse;
     url_Parse := λ s,
       default (Err (errors_New "parse error")) (net_url_Parse s);
     ioutil_ReadFile := λ f,
       if decide (f = "/tmp/x.json") then Ok exampleInitJson
       else Err (errors_New ("open " +:+ f +:+ ": no such file or directory"));
     json_Unmarshal := λ s,
       if decide (s = exampleInitJson) then Ok exampleInitResponse
       else Err (errors_New "invalid character") |}.

(** ** Reading reconciled state back *)

(** [d.Get(key).(string)] and [d.Get(key).([]interface{})] with every element
    asserted to be a string, as a reader of the state would do. *)
Definition stateString (d : ResourceData) (key : string) : option string :=
  match d_Get d key with
  | Some (VString s) => Some s
  | _ => None
  end.

Definition stateStrings (d : ResourceData) (key : string) : option (list string) :=
  match d_Get d key with
  | Some (VList l) =>
      mapM (λ v, match v with VString s => Some s | _ => None end) l
  | _ => None
  end.

(** ** Concrete runs *)

(** A tunnel over TLS with all TLS material given. *)
Definition tlsTunnelBlock : KubeConfigBlock :=
  mkKubeConfigBlock None (Some "vault") (Some "vault-active") (Some "8300") None
    (Some true) (Some "/etc/vault/ca.pem") (Some "/etc/vault/client.pem")
    (Some "/etc/vault/client.key") (Some true).

Definition tlsTunnelConfig : ProviderConfig :=
  mkProviderConfig None (Some "http://vault.example:8200") None [tlsTunnelBlock].

(** A plain tunnel that leaves the local port out. *)
Definition plainTunnelBlock : KubeConfigBlock :=
  mkKubeConfigBlock (Some "/etc/kube/config") (Some "vault") (Some "vault-active")
    None None None None None None None.

Definition plainTunnelConfig : ProviderConfig :=
  mkProviderConfig (Some "http://old.example:8200") None None [plainTunnelBlock].

(** A tunnel block that names the service but not the namespace. *)
Definition unnamedTunnelBlock : KubeConfigBlock :=
  mkKubeConfigBlock None None (Some "vault-active") None None None None None None None.

Definition unnamedTunnelConfig : ProviderConfig :=
  mkProviderConfig None None None [unnamedTunnelBlock].

(** Direct connections. *)
Definition directConfig : ProviderConfig :=
  mkProviderConfig (Some "http://old.example:8200") (Some "http://vault.example:8200")
    None [].

Definition emptyConfig : ProviderConfig := mkProviderConfig None None None [].

(** The handle [configure] builds for [directConfig] in the small world. *)
Definition demoClient : apiClient :=
  mkApiClient (Some (VaultClientHandle 0)) "http://vault.example:8200"
    (mkKubeConn "" "" "" "" "" None None) false (mkTlsConfig "" "" "" false).

(** Resource data of the init resource: as planned by the engine with five
    shares and threshold three, and as handed to the importer. *)
Definition plannedInit : ResourceData :=
  mkResourceData resourceInitSchema ""
    {[ argSecretShares := VInt 5; argSecretThreshold := VInt 3 ]}.

Definition importedInit (id : string) : ResourceData :=
  mkResourceData resourceInitSchema id ∅.

(** The state a first, successful create leaves in the small world, and the
    trace up to that point. *)
Definition initializedInit : ResourceData :=
  updateState plannedInit "http://vault.example:8200" exampleInitResponse.

Definition afterFirstInit : list Event :=
  [EvSysInit (VaultClientHandle 0) (mkInitRequest 5 3)].

(** ** More ways to read a trace *)

(** The log lines written, in order: format and arguments. *)
Definition logLines (tr : list Event) : list (string * list string) :=
  omap (λ e, match e with EvLogPrintf f v => Some (f, v) | _ => None end) tr.

(** The arguments of the calls to [clientcmd.BuildConfigFromFlags], in
    order: master URL and configuration path. *)
Definition kubeconfigPaths (tr : list Event) : list (string * string) :=
  omap (λ e, match e with
             | EvBuildConfigFromFlags u p => Some (u, p)
             | _ => None
             end) tr.

(** The calls into the Kubernetes client library. *)
Definition isKubeCall (e : Event) : bool :=
  match e with
  | EvBuildConfigFromFlags _ _ | EvNewForConfig _ => true
  | _ => false
  end.

Definition kubeCalls (tr : list Event) : list Event := filter isKubeCall tr.

(** ** Worlds in which a collaborator fails *)

Definition withBuildConfigError (err : error) (W : Collaborators) : Collaborators :=
  mkCollaborators (os_Getenv W) (λ _ _, Err err) (kubernetes_NewForConfig W)
    (tls_check W) (api_NewClient W) (client_Address W) (sys_Init W)
    (url_Parse W) (ioutil_ReadFile W) (json_Unmarshal W).

Definition withTLSError (err : error) (W : Collaborators) : Collaborators :=
  mkCollaborators (os_Getenv W) (clientcmd_BuildConfigFromFlags W)
    (kubernetes_NewForConfig W) (λ _, Some err) (api_NewClient W)
    (client_Address W) (sys_Init W) (url_Parse W) (ioutil_ReadFile W)
    (json_Unmarshal W).

Definition withNewClientError (err : error) (W : Collaborators) : Collaborators :=
  mkCollaborators (os_Getenv W) (clientcmd_BuildConfigFromFlags W)
    (kubernetes_NewForConfig W) (tls_check W) (λ _, Err err)
    (client_Address W) (sys_Init W) (url_Parse W) (ioutil_ReadFile W)
    (json_Unmarshal W).

Definition withParseError (err : error) (W : Collaborators) : Collaborators :=
  mkCollaborators (os_Getenv W) (clientcmd_BuildConfigFromFlags W)
    (kubernetes_NewForConfig W) (tls_check W) (api_NewClient W)
    (client_Address W) (sys_Init W) (λ _, Err err) (ioutil_ReadFile W)
    (json_Unmarshal W).

Definition withDecodeError (err : error) (W : Collaborators) : Collaborators :=
  mkCollaborators (os_Getenv W) (clientcmd_BuildConfigFromFlags W)
    (kubernetes_NewForConfig W) (tls_check W) (api_NewClient W)
    (client_Address W) (sys_Init W) (url_Parse W) (ioutil_ReadFile W)
    (λ _, Err err).

(** ** More concrete runs *)

(** A tunnel block that names the namespace but not the service. *)
Definition serviceLessBlock : KubeConfigBlock :=
  mkKubeConfigBlock (Some "/etc/kube/config") (Some "vault") None None None
    None None None None None.

Definition serviceLessConfig : ProviderConfig :=
  mkProviderConfig None None None [serviceLessBlock].

(** A tunnel whose configuration path has [~] in the middle. *)
Definition tildeInsideBlock : KubeConfigBlock :=
  mkKubeConfigBlock (Some "/srv/~kube/config") (Some "vault") (Some "vault-active")
    None None None None None None None.

Definition tildeInsideConfig : ProviderConfig :=
  mkProviderConfig None None None [tildeInsideBlock].

(** Two tunnel blocks: only the first one counts. *)
Definition twoTunnelsConfig : ProviderConfig :=
  mkProviderConfig None None None [plainTunnelBlock; tlsTunnelBlock].

(** A configuration that holds one tunnel block and nothing else. *)
Definition onlyFirstBlock (b : KubeConfigBlock) : ProviderConfig :=
  mkProviderConfig None None None [b].

(** An init response other than the example. *)
Definition otherInitResponse : api_InitResponse :=
  mkInitResponse ["k2"; "k3"] ["azI="; "azM="] "t2".

(** * Properties *)

(** ** Looking up attributes of an encoded configuration *)

Ltac key_ne := let H := fresh in intros H; vm_compute in H; discriminate H.

Lemma optAttr_lookup_ne k k' v (m : gmap string Value) :
  k ≠ k' → optAttr k v m !! k' = m !! k'.
Proof. intros. destruct v; simpl; [by rewrite lookup_insert_ne|done]. Qed.

Lemma optAttr_lookup_eq k v (m : gmap string Value) :
  optAttr k v m !! k = match v with Some x => Some x | None => m !! k end.
Proof. destruct v; simpl; [by rewrite lookup_insert_eq|done]. Qed.

Ltac attr_lookup :=
  repeat (rewrite optAttr_lookup_ne by key_ne);
  try rewrite optAttr_lookup_eq;
  try rewrite lookup_empty.

Ltac block_lookup fld :=
  unfold readBlock, blockAttrs, block_path, block_namespace, block_service,
    block_local_port, block_remote_port, block_use_tls;
  rewrite map_lookup_imap;
  attr_lookup; destruct (fld) as [?|]; simpl; [reflexivity|];
  attr_lookup; reflexivity.

Lemma readBlock_path b :
  readBlock b !! argKubeConfigPath = Some (VString (block_path b)).
Proof. block_lookup (kc_path b). Qed.

Lemma readBlock_namespace b :
  readBlock b !! argNameSpace = Some (VString (block_namespace b)).
Proof. block_lookup (kc_namespace b). Qed.

Lemma readBlock_service b :
  readBlock b !! argServiceName = Some (VString (block_service b)).
Proof. block_lookup (kc_service b). Qed.

Lemma readBlock_local_port b :
  readBlock b !! argLocalPort = Some (VString (block_local_port b)).
Proof. block_lookup (kc_local_port b). Qed.

Lemma readBlock_remote_port b :
  readBlock b !! argRemotePort = Some (VString (block_remote_port b)).
Proof. block_lookup (kc_remote_port b). Qed.

Lemma readBlock_use_tls b :
  readBlock b !! argUseTLS = Some (VBool (block_use_tls b)).
Proof. block_lookup (kc_use_tls b). Qed.

Ltac config_lookup fld :=
  unfold d_Get, providerData, configAttrs; cbn [rd_schema rd_attrs];
  attr_lookup; destruct (fld) as [?|]; simpl; [reflexivity|];
  attr_lookup; reflexivity.

Lemma get_kube_config pc :
  d_Get (providerData pc) argKubeConfig
  = Some (VList ((λ b, VMap (readBlock b)) <$> pc_kube_config pc)).
Proof.
  unfold d_Get, providerData, configAttrs; cbn [rd_schema rd_attrs].
  attr_lookup.
  destruct (pc_kube_config pc) as [|b l]; [reflexivity|].
  change (providerSchema !! argKubeConfig)
    with (Some (mkSchema TypeList true false false None
                         (ElemResource kubeConfigFields))).
  cbn [mbind option_bind]. unfold readField; cbn [s_Type s_Elem].
  by rewrite <- list_fmap_compose.
Qed.

Lemma get_vault_addr pc :
  d_Get (providerData pc) argVaultAddr
  = Some (VString (default "" (pc_vault_addr pc))).
Proof. config_lookup (pc_vault_addr pc). Qed.

Lemma get_vault_url pc :
  d_Get (providerData pc) argVaultUrl
  = Some (VString (default "" (pc_vault_url pc))).
Proof. config_lookup (pc_vault_url pc). Qed.

(** ** Writing and reading resource state *)

Lemma d_Set_ok d key s v :
  rd_schema d !! key = Some s → hasType s v = true →
  d_Set d key v
  = (mkResourceData (rd_schema d) (rd_id d) (<[key := v]> (rd_attrs d)), None).
Proof. intros Hs Ht. unfold d_Set. by rewrite Hs, Ht. Qed.

Lemma strings_have_type (l : list string) :
  forallb (hasPrimType TypeString) (VString <$> l) = true.
Proof. induction l as [|s l IH]; [done|]. by rewrite fmap_cons; simpl. Qed.

Lemma mapM_strings (l : list string) :
  mapM (λ v, match v with VString s => Some s | _ => None end) (VString <$> l)
  = Some l.
Proof.
  induction l as [|s l IH]; [done|].
  rewrite fmap_cons. simpl. by rewrite IH.
Qed.

(** On resource data of the init resource, [updateState] is three inserts
    and a new id. *)
Lemma updateState_attrs d id res :
  rd_schema d = resourceInitSchema →
  updateState d id res
  = mkResourceData resourceInitSchema id
      (<[argKeysBase64 := VList (VString <$> KeysB64 res)]>
         (<[argKeys := VList (VString <$> Keys res)]>
            (<[argRootToken := VString (RootToken res)]> (rd_attrs d)))).
Proof.
  intros Hs. unfold updateState, d_SetId.
  rewrite (d_Set_ok _ argRootToken
             (mkSchema TypeString true false true None ElemNone));
    [|by rewrite Hs|done].
  cbn [fst rd_schema rd_id rd_attrs].
  rewrite (d_Set_ok _ argKeys
             (mkSchema TypeList true false true None (ElemSchema TypeString)));
    [|by rewrite Hs|apply strings_have_type].
  cbn [fst rd_schema rd_id rd_attrs].
  rewrite (d_Set_ok _ argKeysBase64
             (mkSchema TypeList true false true None (ElemSchema TypeString)));
    [|by rewrite Hs|apply strings_have_type].
  cbn [fst rd_schema rd_id rd_attrs]. by rewrite Hs.
Qed.

Lemma updateState_schema d id res :
  rd_schema d = resourceInitSchema →
  rd_schema (updateState d id res) = resourceInitSchema.
Proof. intros Hs. by rewrite updateState_attrs. Qed.

(** The attributes [updateState] does not name keep their values. *)
Lemma updateState_other d id res key :
  rd_schema d = resourceInitSchema →
  key ≠ argRootToken → key ≠ argKeys → key ≠ argKeysBase64 →
  d_Get (updateState d id res) key = d_Get d key.
Proof.
  intros Hs H1 H2 H3. rewrite updateState_attrs by done.
  unfold d_Get; cbn [rd_schema rd_attrs]. rewrite Hs.
  by rewrite !lookup_insert_ne.
Qed.

Lemma updateState_get d id res :
  rd_schema d = resourceInitSchema →
  d_Id (updateState d id res) = id
  ∧ d_Get (updateState d id res) argRootToken = Some (VString (RootToken res))
  ∧ d_Get (updateState d id res) argKeys = Some (VList (VString <$> Keys res))
  ∧ d_Get (updateState d id res) argKeysBase64
    = Some (VList (VString <$> KeysB64 res)).
Proof.
  intros Hs. rewrite updateState_attrs by done.
  unfold d_Id, d_Get; cbn [rd_schema rd_id rd_attrs].
  split; [done|]. split; [|split].
  - rewrite lookup_insert_ne by key_ne. rewrite lookup_insert_ne by key_ne.
    by rewrite lookup_insert_eq.
  - rewrite lookup_insert_ne by key_ne. by rewrite lookup_insert_eq.
  - by rewrite lookup_insert_eq.
Qed.

(** C9. Round trip: after [updateState d address R], on resource data of the
    init resource, the id is [address] and reading back [root_token], [keys]
    and [keys_base64] gives exactly [R]'s root token, key list and base64 key
    list: the same strings, in the same number and order. *)
Theorem updateState_roundtrip (d : ResourceData) (address : string)
    (R : api_InitResponse) :
  rd_schema d = resourceInitSchema →
  let d' := updateState d address R in
  d_Id d' = address
  ∧ stateString d' argRootToken = Some (RootToken R)
  ∧ stateStrings d' argKeys = Some (Keys R)
  ∧ stateStrings d' argKeysBase64 = Some (KeysB64 R)
  ∧ d_Get d' argKeys = Some (VList (VString <$> Keys R))
  ∧ d_Get d' argKeysBase64 = Some (VList (VString <$> KeysB64 R)).
Proof.
  intros Hs d'. subst d'.
  destruct (updateState_get d address R Hs) as (Hid & Ht & Hk & Hb).
  unfold stateString, stateStrings. rewrite Hid, Ht, Hk, Hb.
  by rewrite !mapM_strings.
Qed.

Lemma updateState_roundtrip_witness :
  rd_schema plannedInit = resourceInitSchema
  ∧ let d' := updateState plannedInit "http://localhost:8200" exampleInitResponse in
    d_Id d' = "http://localhost:8200"
    ∧ stateString d' argRootToken = Some "t1"
    ∧ stateStrings d' argKeys = Some ["k1"]
    ∧ stateStrings d' argKeysBase64 = Some ["a2k="]
    ∧ d_Get d' argKeys = Some (VList [VString "k1"])
    ∧ d_Get d' argKeysBase64 = Some (VList [VString "a2k="]).
Proof.
  split; [reflexivity|].
  apply (updateState_roundtrip plannedInit "http://localhost:8200"
           exampleInitResponse).
  reflexivity.
Defined.

(** ** Running [configure] symbolically *)

Ltac go_unfold :=
  cbv beta iota zeta delta
    [call go_bind go_ret go_return go_panic emit assert_slice assert_map
     assert_string assert_bool assert_int deref BuildConfigFromFlags
     NewForConfig ConfigureTLS NewClient Sys_Init ReadFile logError homeDir
     expandHome buildTunnel].

(** One deterministic step: an attribute lookup, a control-flow reduction, or
    the test [len(k) > 0] on a list of known shape. *)
Ltac go_step :=
  first
    [ rewrite readBlock_path | rewrite readBlock_namespace
    | rewrite readBlock_service | rewrite readBlock_local_port
    | rewrite readBlock_remote_port | rewrite readBlock_use_tls
    | rewrite get_kube_config | rewrite get_vault_addr | rewrite get_vault_url
    | progress go_unfold
    | progress cbn [client url a_kubeConn tlsAdded a_tlsConfig apiClient_zero
                    set_client set_url set_kubeConn set_tlsAdded set_tlsConfig
                    set_kubeConfig set_kubeClient set_nameSpace set_serviceName
                    set_localPort set_remotePort caCert clientCert clientKey
                    insecure configPath nameSpace serviceName localPort
                    remotePort kubeConfig kubeClient Address appliedTLS]
    | progress change (@lookup nat Value (list Value) _ ?n (?x :: ?l))
        with (Some x)
    | match goal with
      | |- context [decide (0 < length (?x :: ?l))%nat] =>
          rewrite (decide_True (P := (0 < length (x :: l))%nat))
            by (simpl; lia)
      | |- context [decide (0 < length (@nil ?A))%nat] =>
          rewrite (decide_False (P := (0 < length (@nil A))%nat))
            by (simpl; lia)
      end ].

(** One branching step: a case split on what a test or a collaborator
    answers. *)
Ltac go_branch :=
  match goal with
  | |- context [match strings_Contains ?s ?t with _ => _ end] =>
      destruct (strings_Contains s t) eqn:?
  | |- context [match decide ?P with _ => _ end] =>
      destruct (decide P)
  | |- context [match clientcmd_BuildConfigFromFlags ?c ?u ?p with _ => _ end] =>
      destruct (clientcmd_BuildConfigFromFlags c u p) eqn:?
  | |- context [match kubernetes_NewForConfig ?c ?k with _ => _ end] =>
      destruct (kubernetes_NewForConfig c k) eqn:?
  | |- context [match tls_check ?c ?t with _ => _ end] =>
      destruct (tls_check c t) eqn:?
  | |- context [match api_NewClient ?c ?k with _ => _ end] =>
      destruct (api_NewClient c k) eqn:?
  | |- context [match block_use_tls ?b with _ => _ end] =>
      destruct (block_use_tls b) eqn:?
  | |- context [match url_Parse ?c ?s with _ => _ end] =>
      destruct (url_Parse c s) eqn:?
  | |- context [match ioutil_ReadFile ?c ?f with _ => _ end] =>
      destruct (ioutil_ReadFile c f) eqn:?
  | |- context [match json_Unmarshal ?c ?s with _ => _ end] =>
      destruct (json_Unmarshal c s) eqn:?
  | |- context [match sys_Init ?c ?tr ?cl ?req with _ => _ end] =>
      destruct (sys_Init c tr cl req) eqn:?
  | |- context [match client ?a with _ => _ end] =>
      destruct (client a) eqn:?
  end.

Ltac go_run := repeat (go_step || go_branch).

(** A collaborator asked the same question gives the same answer. *)
Ltac same_answer :=
  repeat match goal with
         | H1 : ?x = Ok _, H2 : ?x = Ok _ |- _ =>
             rewrite H1 in H2; injection H2 as <-
         | H1 : ?x = Ok _, H2 : ?x = Err _ |- _ =>
             rewrite H1 in H2; discriminate H2
         end.

Lemma clientsBuilt_app tr evs :
  clientsBuilt (tr ++ evs) = clientsBuilt tr ++ clientsBuilt evs.
Proof. apply omap_app. Qed.

Lemma tlsApplied_app tr evs :
  tlsApplied (tr ++ evs) = tlsApplied tr ++ tlsApplied evs.
Proof. apply omap_app. Qed.

Lemma filesRead_app tr evs :
  filesRead (tr ++ evs) = filesRead tr ++ filesRead evs.
Proof. apply omap_app. Qed.

Lemma directAddress_empty va vu env :
  directAddress va vu env = "" ↔ va = "" ∧ vu = "" ∧ env = "".
Proof.
  unfold directAddress.
  destruct (decide (va ≠ "")) as [?|Ha%dec_stable];
    [|destruct (decide (vu ≠ "")) as [?|Hu%dec_stable]];
    (split; [intros ?|intros (? & ? & ?)]); repeat split; congruence.
Qed.

Section Configure.
Context (C : Collaborators).

(** C3. Without a [kube_config] block the resolved address is [vault_addr] if
    that is non-empty, else [vault_url] if non-empty, else the value of the
    [VAULT_ADDR] environment variable: every handle [configure] returns is
    bound to it, and a handle is returned whenever the address is non-empty
    and the Vault API client can be built for it.  If all three are empty,
    [configure] returns no handle but an error diagnostic naming [vault_url]
    and [VAULT_ADDR], and makes no outside call. *)
Theorem direct_address_resolved (version : string) (pc : ProviderConfig)
    (tr : list Event) :
  pc_kube_config pc = [] →
  let vault_addr := default "" (pc_vault_addr pc) in
  let vault_url := default "" (pc_vault_url pc) in
  let addr := directAddress vault_addr vault_url (os_Getenv C envVaultAddr) in
  let run := call (configure C version (providerData pc)) tr in
  (∀ tr' a ds, run = (tr', Returned (Some a, ds)) → url a = addr)
  ∧ (addr ≠ "" → ∀ c, api_NewClient C (mkConfig addr None) = Ok c →
       ∃ a, run = (tr ++ [EvNewClient (mkConfig addr None)],
                   Returned (Some a, []))
            ∧ url a = addr ∧ client a = Some c ∧ tlsAdded a = false)
  ∧ (vault_addr = "" → vault_url = "" → os_Getenv C envVaultAddr = "" →
       ∃ msg, run = (tr, Returned (None, diag_Errorf msg))
              ∧ strings_Contains msg argVaultUrl = true
              ∧ strings_Contains msg envVaultAddr = true).
Proof.
  intros Hk vault_addr vault_url addr run.
  subst run addr vault_addr vault_url. unfold directAddress, configure.
  rewrite get_kube_config, Hk, fmap_nil.
  split; [|split].
  - go_run; intros tr' a' ds' Heq; simplify_eq; reflexivity.
  - intros Hne c Hc. revert Hne Hc. go_run; intros Hne Hc; simplify_eq;
      try (rewrite Hc); (eexists; repeat split; reflexivity) || congruence.
  - intros H1 H2 H3. go_run; try congruence.
    eexists. split; [reflexivity|]. split; reflexivity.
Qed.

(** C2. With a [kube_config] block whose namespace and service are non-empty,
    the resolved address is [https://localhost:<local_port>] when [use_tls] is
    true and [http://localhost:<local_port>] when it is false, with the
    configured [local_port] or ["8200"] when none is given; [vault_addr] and
    [vault_url] play no part.  Every handle [configure] returns is bound to
    that address, the Vault API client is built for no other address, and a
    handle is returned whenever the tunnel builds and the Vault API client
    accepts the configuration. *)
Theorem tunnel_address_resolved (version : string) (pc : ProviderConfig)
    (b : KubeConfigBlock) (rest : list KubeConfigBlock) (tr : list Event) :
  pc_kube_config pc = b :: rest →
  block_namespace b ≠ "" →
  block_service b ≠ "" →
  let addr := tunnelAddress (block_use_tls b) (block_local_port b) in
  let run := call (configure C version (providerData pc)) tr in
  (∀ tr' a ds, run = (tr', Returned (Some a, ds)) → url a = addr)
  ∧ (∃ evs, run.1 = tr ++ evs
            ∧ Forall (λ c, Address c = addr) (clientsBuilt evs))
  ∧ (∀ t, buildTunnel C b = Ok t →
       (∀ tls, tls_check C tls = None) →
       (∀ cfg, Address cfg = addr → ∃ c, api_NewClient C cfg = Ok c) →
       ∃ tr' a, run = (tr', Returned (Some a, [])) ∧ url a = addr
                ∧ tlsAdded a = block_use_tls b
                ∧ localPort (a_kubeConn a) = block_local_port b).
Proof.
  intros Hk Hns Hsvc addr run. subst run addr.
  unfold configure. rewrite get_kube_config, Hk, fmap_cons.
  split; [|split].
  - go_run; intros tr' a' ds' Heq; simplify_eq; reflexivity.
  - go_run; cbn [fst]; rewrite <- ?(assoc_L (++));
      first [ by (exists []; split; [by rewrite app_nil_r|constructor])
            | eexists; (split; [reflexivity|]);
              cbn [clientsBuilt omap app]; by repeat constructor ].
  - intros t Ht Htls Hnew. revert Ht. go_run; intros Ht; simplify_eq;
      try match goal with
          | H : tls_check C ?x = Some _ |- _ => exfalso; rewrite Htls in H; congruence
          | H : api_NewClient C ?cfg = Err _ |- _ =>
              exfalso; destruct (Hnew cfg) as [? ?]; [reflexivity|congruence]
          end;
      by eexists _, _.
Qed.

(** Whatever TLS material the block carries, the only TLS settings
    [configure] ever hands to [ConfigureTLS] are empty paths and
    [Insecure: false]. *)
Lemma configure_tls_settings_fixed (version : string) (pc : ProviderConfig)
    (tr : list Event) :
  ∃ evs, (call (configure C version (providerData pc)) tr).1 = tr ++ evs
         ∧ Forall (λ t, t = mkTLSConfig "" "" "" false) (tlsApplied evs).
Proof.
  unfold configure. rewrite get_kube_config.
  destruct (pc_kube_config pc) as [|b rest];
    [rewrite fmap_nil|rewrite fmap_cons];
    go_run; cbn [fst]; rewrite <- ?(assoc_L (++));
    first [ by (exists []; split; [by rewrite app_nil_r|constructor])
          | eexists; (split; [reflexivity|]);
            cbn [tlsApplied omap app]; by repeat constructor ].
Qed.

(** C4, as amended. With a [kube_config] block whose namespace is empty,
    [configure] returns no handle and never reaches [api.NewClient].  Its
    error is "Vault namespace is not specified" when the steps before the
    namespace check succeed (home-directory expansion, Kubernetes
    configuration, Kubernetes client), and otherwise the error of the first
    of those steps that fails. *)
Theorem empty_namespace_fails_before_client (version : string)
    (pc : ProviderConfig) (b : KubeConfigBlock) (rest : list KubeConfigBlock)
    (tr : list Event) :
  pc_kube_config pc = b :: rest →
  block_namespace b = "" →
  ∃ tr' ds,
    call (configure C version (providerData pc)) tr = (tr', Returned (None, ds))
    ∧ clientsBuilt tr' = clientsBuilt tr
    ∧ ds = match buildTunnel C b with
           | Ok _ => diag_Errorf "Vault namespace is not specified"
           | Err err => diag_FromErr err
           end.
Proof.
  intros Hk Hns.
  unfold configure. rewrite get_kube_config, Hk, fmap_cons.
  go_run; try congruence;
    (eexists _, _; split; [reflexivity|]; split; [|reflexivity]);
    rewrite ?clientsBuilt_app; cbn [clientsBuilt omap]; by rewrite ?app_nil_r.
Qed.

End Configure.

(** ** The earlier revision of [configure] *)

Ltac legacy_block_lookup fld :=
  unfold Legacy.readBlock, Legacy.blockAttrs, block_path, block_namespace,
    block_service, block_local_port, block_remote_port;
  rewrite map_lookup_imap;
  attr_lookup; destruct (fld) as [?|]; simpl; [reflexivity|];
  attr_lookup; reflexivity.

Lemma legacy_readBlock_path b :
  Legacy.readBlock b !! argKubeConfigPath = Some (VString (block_path b)).
Proof. legacy_block_lookup (kc_path b). Qed.

Lemma legacy_readBlock_namespace b :
  Legacy.readBlock b !! argNameSpace = Some (VString (block_namespace b)).
Proof. legacy_block_lookup (kc_namespace b). Qed.

Lemma legacy_readBlock_service b :
  Legacy.readBlock b !! argServiceName = Some (VString (block_service b)).
Proof. legacy_block_lookup (kc_service b). Qed.

Lemma legacy_readBlock_local_port b :
  Legacy.readBlock b !! argLocalPort = Some (VString (block_local_port b)).
Proof. legacy_block_lookup (kc_local_port b). Qed.

Lemma legacy_readBlock_remote_port b :
  Legacy.readBlock b !! argRemotePort = Some (VString (block_remote_port b)).
Proof. legacy_block_lookup (kc_remote_port b). Qed.

Ltac legacy_config_lookup fld :=
  unfold d_Get, Legacy.providerData, Legacy.configAttrs;
  cbn [rd_schema rd_attrs];
  attr_lookup; destruct (fld) as [?|]; simpl; [reflexivity|];
  attr_lookup; reflexivity.

Lemma legacy_get_kube_config pc :
  d_Get (Legacy.providerData pc) argKubeConfig
  = Some (VList ((λ b, VMap (Legacy.readBlock b)) <$> pc_kube_config pc)).
Proof.
  unfold d_Get, Legacy.providerData, Legacy.configAttrs;
    cbn [rd_schema rd_attrs].
  attr_lookup.
  destruct (pc_kube_config pc) as [|b l]; [reflexivity|].
  change (Legacy.providerSchema !! argKubeConfig)
    with (Some (mkSchema TypeList true false false None
                         (ElemResource Legacy.kubeConfigFields))).
  cbn [mbind option_bind]. unfold readField; cbn [s_Type s_Elem].
  by rewrite <- list_fmap_compose.
Qed.

Lemma legacy_get_vault_addr pc :
  d_Get (Legacy.providerData pc) argVaultAddr
  = Some (VString (default "" (pc_vault_addr pc))).
Proof. legacy_config_lookup (pc_vault_addr pc). Qed.

Lemma legacy_get_vault_url pc :
  d_Get (Legacy.providerData pc) argVaultUrl
  = Some (VString (default "" (pc_vault_url pc))).
Proof. legacy_config_lookup (pc_vault_url pc). Qed.

Ltac legacy_step :=
  first
    [ rewrite legacy_readBlock_path | rewrite legacy_readBlock_namespace
    | rewrite legacy_readBlock_service | rewrite legacy_readBlock_local_port
    | rewrite legacy_readBlock_remote_port
    | rewrite legacy_get_kube_config | rewrite legacy_get_vault_addr
    | rewrite legacy_get_vault_url
    | progress cbn [Legacy.client Legacy.url Legacy.a_kubeConn
                    Legacy.apiClient_zero Legacy.set_client Legacy.set_url
                    Legacy.set_kubeConn Legacy.set_kubeConfig
                    Legacy.set_kubeClient Legacy.set_nameSpace
                    Legacy.set_serviceName Legacy.set_localPort
                    Legacy.set_remotePort forgetTLS forgetTLS_run fst snd
                    fmap option_fmap option_map]
    | go_step ].

Ltac legacy_run := repeat (legacy_step || go_branch).


(** X14. In the earlier revision a tunnelled handle is always bound to
    [http://localhost:<local_port>]. *)
Lemma legacy_tunnel_address (C : Collaborators) (version : string)
    (pc : ProviderConfig) (b : KubeConfigBlock) (rest : list KubeConfigBlock)
    (tr tr' : list Event) (a : Legacy.apiClient) (ds : Diagnostics) :
  pc_kube_config pc = b :: rest →
  call (Legacy.configure C version (Legacy.providerData pc)) tr
  = (tr', Returned (Some a, ds)) →
  Legacy.url a = tunnelAddress false (block_local_port b).
Proof.
  intros Hk. unfold Legacy.configure.
  rewrite legacy_get_kube_config, Hk, fmap_cons.
  legacy_run; intros Heq; simplify_eq; reflexivity.
Qed.

(** X15. In the earlier revision a direct handle is bound to the first
    non-empty of [vault_addr], [vault_url] and [VAULT_ADDR], and there is no
    handle when all three are empty. *)
Lemma legacy_direct_address (C : Collaborators) (version : string)
    (pc : ProviderConfig) (tr : list Event) :
  pc_kube_config pc = [] →
  let addr := directAddress (default "" (pc_vault_addr pc))
                (default "" (pc_vault_url pc)) (os_Getenv C envVaultAddr) in
  let run := call (Legacy.configure C version (Legacy.providerData pc)) tr in
  (∀ tr' a ds, run = (tr', Returned (Some a, ds)) → Legacy.url a = addr)
  ∧ (addr = "" →
     run = (tr, Returned (None, diag_Errorf
              "argument 'vault_url' is required, or set VAULT_ADDR environment variable"))).
Proof.
  intros Hk addr run. subst run addr. unfold directAddress, Legacy.configure.
  rewrite legacy_get_kube_config, Hk, fmap_nil. split.
  - legacy_run; intros tr' a' ds' Heq; simplify_eq; reflexivity.
  - legacy_run; intros Hempty; first [reflexivity|congruence].
Qed.

Lemma tunnel_address_resolved_witness :
  pc_kube_config plainTunnelConfig = [plainTunnelBlock]
  ∧ block_namespace plainTunnelBlock ≠ ""
  ∧ block_service plainTunnelBlock ≠ ""
  ∧ ∀ tr' a ds,
      call (configure (demoWorld "/home/op" "") "1.0"
              (providerData plainTunnelConfig)) []
      = (tr', Returned (Some a, ds)) →
      url a = "http://localhost:8200".
Proof.
  split; [reflexivity|]. split; [discriminate|]. split; [discriminate|].
  apply (tunnel_address_resolved (demoWorld "/home/op" "") "1.0"
           plainTunnelConfig plainTunnelBlock [] []);
    [reflexivity|discriminate|discriminate].
Defined.

(** The same world, a tunnel over TLS on local port 8300. *)
Example tls_tunnel_address :
  ∃ tr a, call (configure (demoWorld "/home/op" "") "1.0"
                  (providerData tlsTunnelConfig)) []
          = (tr, Returned (Some a, []))
          ∧ url a = "https://localhost:8300".
Proof. eexists _, _. split; by vm_compute. Qed.

Lemma direct_address_resolved_witness :
  pc_kube_config directConfig = []
  ∧ ∀ tr' a ds,
      call (configure (demoWorld "/home/op" "http://env.example:8200") "1.0"
              (providerData directConfig)) []
      = (tr', Returned (Some a, ds)) →
      url a = "http://vault.example:8200".
Proof.
  split; [reflexivity|].
  apply (direct_address_resolved
           (demoWorld "/home/op" "http://env.example:8200") "1.0"
           directConfig []).
  reflexivity.
Defined.

Lemma empty_namespace_fails_before_client_witness :
  pc_kube_config unnamedTunnelConfig = [unnamedTunnelBlock]
  ∧ block_namespace unnamedTunnelBlock = ""
  ∧ ∃ tr' ds,
      call (configure (demoWorld "/home/op" "") "1.0"
              (providerData unnamedTunnelConfig)) []
      = (tr', Returned (None, ds))
      ∧ clientsBuilt tr' = []
      ∧ ds = diag_Errorf "Vault namespace is not specified".
Proof.
  split; [reflexivity|]. split; [reflexivity|].
  apply (empty_namespace_fails_before_client (demoWorld "/home/op" "") "1.0"
           unnamedTunnelConfig unnamedTunnelBlock [] []);
    reflexivity.
Defined.

(** C4, as stated, fails: with [HOME] unset and the default path
    [~/.kube/config], an empty namespace is never looked at; the error is
    the one of [homeDir]. *)
Lemma empty_namespace_error_is_not_always_namespace :
  block_namespace unnamedTunnelBlock = ""
  ∧ call (configure (demoWorld "" "") "1.0" (providerData unnamedTunnelConfig)) []
    = ([], Returned (None, diag_FromErr (errors_New "unable to get HOME directory")))
  ∧ ¬ (∃ tr',
         call (configure (demoWorld "" "") "1.0"
                 (providerData unnamedTunnelConfig)) []
         = (tr', Returned (None, diag_Errorf "Vault namespace is not specified"))).
Proof.
  split; [reflexivity|]. split; [by vm_compute|].
  intros [tr' H]. vm_compute in H. discriminate H.
Qed.

(** C1 does not hold of the code: for a tunnel over TLS with [ca_cert],
    [client_cert], [client_key] and [use_insecure_tls = true] all configured,
    the TLS settings applied to the client configuration are empty paths and
    [Insecure: false], not the configured material. *)
Theorem tls_material_is_not_carried_forward :
  block_use_tls tlsTunnelBlock = true
  ∧ configuredTLS tlsTunnelBlock
    = Some (mkTLSConfig "/etc/vault/ca.pem" "/etc/vault/client.pem"
                        "/etc/vault/client.key" true)
  ∧ tlsApplied
      (call (configure (demoWorld "/home/op" "") "1.0"
               (providerData tlsTunnelConfig)) []).1
    = [mkTLSConfig "" "" "" false]
  ∧ clientsBuilt
      (call (configure (demoWorld "/home/op" "") "1.0"
               (providerData tlsTunnelConfig)) []).1
    = [mkConfig "https://localhost:8300" (Some (mkTLSConfig "" "" "" false))].
Proof. repeat split; by vm_compute. Qed.

(** ** The init resource *)

Section Resource.
Context (C : Collaborators).

(** C7. On every resource data and handle, the read, update and delete hooks
    of the init resource return the error diagnostic "not implemented",
    leave the resource data as it was and make no outside call. *)
Theorem unimplemented_hooks_fail (d : ResourceData) (meta : apiClient)
    (tr : list Event) :
  call (ReadContext (resourceInit C) d meta) tr
  = (tr, Returned (d, diag_Errorf "not implemented"))
  ∧ call (UpdateContext (resourceInit C) d meta) tr
    = (tr, Returned (d, diag_Errorf "not implemented"))
  ∧ call (DeleteContext (resourceInit C) d meta) tr
    = (tr, Returned (d, diag_Errorf "not implemented")).
Proof. repeat split. Qed.

(** C5. When the import identifier parses to a URL whose scheme is not
    [file], the importer returns the error "unsupported scheme", reads no
    file (its only outside call is the log line) and leaves the resource data
    as it was. *)
Theorem importer_rejects_other_schemes (d : ResourceData) (meta : apiClient)
    (tr : list Event) (u : URL) :
  url_Parse C (d_Id d) = Ok u →
  Scheme u ≠ "file" →
  let run := call (resourceInitImporter C d meta) tr in
  run = (tr ++ [EvLogPrintf "[ERROR] unsupported scheme" []],
         Returned (d, Err (errors_New "unsupported scheme")))
  ∧ filesRead run.1 = filesRead tr.
Proof.
  intros Hu Hs run. subst run. unfold resourceInitImporter. rewrite Hu.
  go_run; try done. split; [reflexivity|].
  cbn [fst]. rewrite filesRead_app. cbn [filesRead omap]. by rewrite app_nil_r.
Qed.

(** C10. When the import identifier parses to a URL with scheme [file], the
    one file the importer reads is [filepath.Join(u.Host, u.Path)].  So
    [file://name.json], whose host is [name.json] and whose path is empty,
    reads the relative path [name.json], and [file:///a/b.json], whose host
    is empty, reads the absolute path [/a/b.json]. *)
Theorem importer_reads_join_of_host_and_path (d : ResourceData)
    (meta : apiClient) (tr : list Event) :
  let run := call (resourceInitImporter C d meta) tr in
  (∀ u, url_Parse C (d_Id d) = Ok u → Scheme u = "file" →
     filesRead run.1 = filesRead tr ++ [filepath_Join [Host u; Path u]])
  ∧ (d_Id d = "file://name.json" →
     net_url_Parse (d_Id d) = Some (url_Parse C (d_Id d)) →
     filesRead run.1 = filesRead tr ++ ["name.json"])
  ∧ (d_Id d = "file:///a/b.json" →
     net_url_Parse (d_Id d) = Some (url_Parse C (d_Id d)) →
     filesRead run.1 = filesRead tr ++ ["/a/b.json"]).
Proof.
  intros run.
  assert (Hgen : ∀ u, url_Parse C (d_Id d) = Ok u → Scheme u = "file" →
            filesRead run.1 = filesRead tr ++ [filepath_Join [Host u; Path u]]).
  { intros u Hu Hs. subst run. unfold resourceInitImporter. rewrite Hu.
    go_run; try done; cbn [fst];
      rewrite <- ?(assoc_L (++)), filesRead_app; reflexivity. }
  split; [exact Hgen|]. split; intros Hid Hparse; rewrite Hid in Hparse.
  - vm_compute in Hparse. injection Hparse as Hparse.
    rewrite Hid in Hgen. by rewrite (Hgen _ (eq_sym Hparse) eq_refl).
  - vm_compute in Hparse. injection Hparse as Hparse.
    rewrite Hid in Hgen. by rewrite (Hgen _ (eq_sym Hparse) eq_refl).
Qed.

(** C6. When the import identifier parses to a [file] URL, the file is
    readable and its content decodes to an init response [r], the importer
    succeeds and returns the resource data it was given, now with the id set
    to the address of the handle's client and with [root_token], [keys] and
    [keys_base64] equal to the fields of [r]. *)
Theorem importer_reconciles_file (d : ResourceData) (meta : apiClient)
    (c : api_Client) (tr : list Event) (u : URL) (fc : string)
    (r : api_InitResponse) :
  rd_schema d = resourceInitSchema →
  client meta = Some c →
  url_Parse C (d_Id d) = Ok u →
  Scheme u = "file" →
  ioutil_ReadFile C (filepath_Join [Host u; Path u]) = Ok fc →
  json_Unmarshal C fc = Ok r →
  ∃ d', call (resourceInitImporter C d meta) tr
        = (tr ++ [EvReadFile (filepath_Join [Host u; Path u])],
           Returned (d', Ok [d']))
        ∧ d_Id d' = client_Address C c
        ∧ stateString d' argRootToken = Some (RootToken r)
        ∧ stateStrings d' argKeys = Some (Keys r)
        ∧ stateStrings d' argKeysBase64 = Some (KeysB64 r).
Proof.
  intros Hs Hc Hu Hscheme Hfile Hjson.
  exists (updateState d (client_Address C c) r). split.
  - unfold resourceInitImporter. rewrite Hu.
    go_run; try done; simplify_eq; same_answer; reflexivity.
  - destruct (updateState_get d (client_Address C c) r Hs) as (Hid & Ht & Hk & Hb).
    unfold stateString, stateStrings. rewrite Hid, Ht, Hk, Hb.
    by rewrite !mapM_strings.
Qed.

(** When the initialize call fails, [resourceInitCreate] logs the error and
    returns it as its diagnostic, with the resource data as it was. *)
Lemma resourceInitCreate_failure (d : ResourceData) (meta : apiClient)
    (c : api_Client) (shares threshold : Z) (tr : list Event) (err : error) :
  d_Get d argSecretShares = Some (VInt shares) →
  d_Get d argSecretThreshold = Some (VInt threshold) →
  client meta = Some c →
  sys_Init C tr c (mkInitRequest shares threshold) = Err err →
  call (resourceInitCreate C d meta) tr
  = (tr ++ [EvSysInit c (mkInitRequest shares threshold);
            EvLogPrintf "[ERROR] failed to initialize Vault: %v" [Error err]],
     Returned (d, diag_FromErr err)).
Proof.
  intros Hsh Hth Hc Herr. unfold resourceInitCreate.
  rewrite Hsh, Hth, Hc. go_run; simplify_eq.
  by rewrite <- (assoc_L (++)).
Qed.

(** When the initialize call succeeds, [resourceInitCreate] stores its
    result under the address of the client. *)
Lemma resourceInitCreate_success (d : ResourceData) (meta : apiClient)
    (c : api_Client) (shares threshold : Z) (tr : list Event)
    (res : api_InitResponse) :
  d_Get d argSecretShares = Some (VInt shares) →
  d_Get d argSecretThreshold = Some (VInt threshold) →
  client meta = Some c →
  sys_Init C tr c (mkInitRequest shares threshold) = Ok res →
  call (resourceInitCreate C d meta) tr
  = (tr ++ [EvSysInit c (mkInitRequest shares threshold)],
     Returned (updateState d (client_Address C c) res, [])).
Proof.
  intros Hsh Hth Hc Hres. unfold resourceInitCreate.
  rewrite Hsh, Hth, Hc. go_run; by simplify_eq.
Qed.

(** C8. When the initialize call issued by create fails with [err], create
    returns [err] as its diagnostic and the resource data as it was: id,
    [root_token], [keys] and [keys_base64] are untouched.  In particular,
    when an earlier create succeeded and left [d1], a later create on [d1]
    whose initialize call fails returns [d1] itself. *)
Theorem create_failure_commits_nothing (d : ResourceData) (meta : apiClient)
    (c : api_Client) (shares threshold : Z) (tr : list Event) (err : error) :
  rd_schema d = resourceInitSchema →
  d_Get d argSecretShares = Some (VInt shares) →
  d_Get d argSecretThreshold = Some (VInt threshold) →
  client meta = Some c →
  (sys_Init C tr c (mkInitRequest shares threshold) = Err err →
   ∃ tr', call (resourceInitCreate C d meta) tr
          = (tr', Returned (d, diag_FromErr err))
          ∧ initsSent tr' = initsSent tr ++ [mkInitRequest shares threshold])
  ∧ (∀ tr1 d1,
       call (resourceInitCreate C d meta) tr = (tr1, Returned (d1, [])) →
       sys_Init C tr1 c (mkInitRequest shares threshold) = Err err →
       ∃ tr2, call (resourceInitCreate C d1 meta) tr1
              = (tr2, Returned (d1, diag_FromErr err))).
Proof.
  intros Hs Hsh Hth Hc. split.
  - intros Herr. eexists. split.
    + by apply resourceInitCreate_failure.
    + unfold initsSent. rewrite omap_app. reflexivity.
  - intros tr1 d1 Hfirst Herr.
    destruct (sys_Init C tr c (mkInitRequest shares threshold)) as [res|e] eqn:Hinit.
    + rewrite (resourceInitCreate_success d meta c shares threshold tr res)
        in Hfirst by done.
      simplify_eq. eexists.
      apply resourceInitCreate_failure; try done;
        rewrite updateState_other by (done || key_ne); done.
    + rewrite (resourceInitCreate_failure d meta c shares threshold tr e)
        in Hfirst by done.
      simplify_eq.
Qed.

End Resource.

Lemma importer_rejects_other_schemes_witness :
  url_Parse (demoWorld "/home/op" "")
    (d_Id (importedInit "https://vault.example/init.json"))
  = Ok (mkURL "https" "" "vault.example" "/init.json")
  ∧ Scheme (mkURL "https" "" "vault.example" "/init.json") ≠ "file"
  ∧ call (resourceInitImporter (demoWorld "/home/op" "")
            (importedInit "https://vault.example/init.json") demoClient) []
    = ([EvLogPrintf "[ERROR] unsupported scheme" []],
       Returned (importedInit "https://vault.example/init.json",
                 Err (errors_New "unsupported scheme"))).
Proof.
  split; [by vm_compute|]. split; [discriminate|].
  apply (importer_rejects_other_schemes (demoWorld "/home/op" "")
           (importedInit "https://vault.example/init.json") demoClient []
           (mkURL "https" "" "vault.example" "/init.json"));
    [by vm_compute|discriminate].
Defined.

Lemma importer_reads_join_of_host_and_path_witness :
  d_Id (importedInit "file://name.json") = "file://name.json"
  ∧ net_url_Parse "file://name.json"
    = Some (url_Parse (demoWorld "/home/op" "") "file://name.json")
  ∧ filesRead
      (call (resourceInitImporter (demoWorld "/home/op" "")
               (importedInit "file://name.json") demoClient) []).1
    = ["name.json"].
Proof.
  split; [reflexivity|]. split; [by vm_compute|].
  apply (importer_reads_join_of_host_and_path (demoWorld "/home/op" "")
           (importedInit "file://name.json") demoClient []);
    [reflexivity|by vm_compute].
Defined.

Lemma importer_reconciles_file_witness :
  url_Parse (demoWorld "/home/op" "") (d_Id (importedInit "file:///tmp/x.json"))
  = Ok (mkURL "file" "" "" "/tmp/x.json")
  ∧ ioutil_ReadFile (demoWorld "/home/op" "") "/tmp/x.json" = Ok exampleInitJson
  ∧ json_Unmarshal (demoWorld "/home/op" "") exampleInitJson
    = Ok exampleInitResponse
  ∧ ∃ d', call (resourceInitImporter (demoWorld "/home/op" "")
                  (importedInit "file:///tmp/x.json") demoClient) []
          = ([EvReadFile "/tmp/x.json"], Returned (d', Ok [d']))
          ∧ d_Id d' = "http://vault.example:8200"
          ∧ stateString d' argRootToken = Some "t1"
          ∧ stateStrings d' argKeys = Some ["k1"]
          ∧ stateStrings d' argKeysBase64 = Some ["a2k="].
Proof.
  split; [by vm_compute|]. split; [by vm_compute|]. split; [by vm_compute|].
  apply (importer_reconciles_file (demoWorld "/home/op" "")
           (importedInit "file:///tmp/x.json") demoClient (VaultClientHandle 0)
           [] (mkURL "file" "" "" "/tmp/x.json") exampleInitJson
           exampleInitResponse);
    by vm_compute.
Defined.

(** In the small world the first create succeeds and leaves
    [initializedInit]; the second one below starts from there. *)
Example first_create_succeeds :
  call (resourceInitCreate (demoWorld "/home/op" "") plannedInit demoClient) []
  = (afterFirstInit, Returned (initializedInit, [])).
Proof. by vm_compute. Qed.

Lemma create_failure_commits_nothing_witness :
  sys_Init (demoWorld "/home/op" "") afterFirstInit (VaultClientHandle 0)
    (mkInitRequest 5 3)
  = Err (errors_New "Vault is already initialized")
  ∧ ∃ tr', call (resourceInitCreate (demoWorld "/home/op" "") initializedInit
                   demoClient) afterFirstInit
           = (tr', Returned (initializedInit,
                             diag_FromErr (errors_New "Vault is already initialized")))
           ∧ initsSent tr' = [mkInitRequest 5 3; mkInitRequest 5 3].
Proof.
  split; [by vm_compute|].
  apply (create_failure_commits_nothing (demoWorld "/home/op" "")
           initializedInit demoClient (VaultClientHandle 0) 5 3 afterFirstInit
           (errors_New "Vault is already initialized"));
    by vm_compute.
Defined.

(** * Further properties of the code *)

(** ** Normal forms of traces *)

Lemma logLines_app tr evs : logLines (tr ++ evs) = logLines tr ++ logLines evs.
Proof. apply omap_app. Qed.

Lemma kubeconfigPaths_app tr evs :
  kubeconfigPaths (tr ++ evs) = kubeconfigPaths tr ++ kubeconfigPaths evs.
Proof. apply omap_app. Qed.

Lemma kubeCalls_app tr evs : kubeCalls (tr ++ evs) = kubeCalls tr ++ kubeCalls evs.
Proof. apply filter_app. Qed.

(** Projections reduced, appends flattened. *)
Ltac trace_nf :=
  cbn [fst snd]; rewrite <- ?(assoc_L (++)); cbn [app].

(** ** [configure]: shapes of its result and failures of the tunnel *)

Section ConfigureMore.
Context (C : Collaborators).

(** X1. On every provider configuration [configure] returns (no type
    assertion panics) and its result has one of two shapes: a handle and no
    diagnostics, the handle bound to a non-empty address and holding the
    client that the last [api.NewClient] call built for that address; or no
    handle and exactly one error diagnostic. *)
Theorem configure_returns_handle_or_error (version : string)
    (pc : ProviderConfig) (tr : list Event) :
  let run := call (configure C version (providerData pc)) tr in
  (∃ a c cfg, run.2 = Returned (Some a, [])
              ∧ client a = Some c ∧ url a ≠ ""
              ∧ Address cfg = url a ∧ api_NewClient C cfg = Ok c
              ∧ last (clientsBuilt run.1) = Some cfg)
  ∨ (∃ msg, run.2 = Returned (None, diag_Errorf msg)).
Proof.
  intros run. subst run. unfold configure. rewrite get_kube_config.
  destruct (pc_kube_config pc) as [|b rest];
    [rewrite fmap_nil|rewrite fmap_cons];
    go_run; cbn [snd fst];
    first [ by (right; eexists)
          | lazymatch goal with
            | H : api_NewClient C ?cfg = Ok ?c |- _ =>
                left; eexists; exists c, cfg;
                split; [reflexivity|]; split; [reflexivity|];
                split; [done|]; split; [reflexivity|]; split; [exact H|];
                rewrite clientsBuilt_app; apply last_snoc
            end ].
Qed.

(** X2. [configure] looks at [k[0]] only: with a [kube_config] block present
    the run depends on that first block alone, not on further blocks,
    [vault_addr], [vault_url] or [request_headers]. *)
Theorem configure_reads_first_block_only (version : string)
    (pc : ProviderConfig) (b : KubeConfigBlock) (rest : list KubeConfigBlock)
    (tr : list Event) :
  pc_kube_config pc = b :: rest →
  call (configure C version (providerData pc)) tr
  = call (configure C version (providerData (onlyFirstBlock b))) tr.
Proof.
  intros Hk. unfold configure. rewrite !get_kube_config, Hk.
  cbn [onlyFirstBlock pc_kube_config]. rewrite !fmap_cons, fmap_nil.
  go_run; simplify_eq; reflexivity.
Qed.

(** X3. When the configuration path of the tunnel contains [~] (as the
    default [~/.kube/config] does) and [HOME] is empty, [configure] returns
    the error "unable to get HOME directory" without any outside call. *)
Theorem unset_home_stops_configure (version : string) (pc : ProviderConfig)
    (b : KubeConfigBlock) (rest : list KubeConfigBlock) (tr : list Event) :
  pc_kube_config pc = b :: rest →
  strings_Contains (block_path b) "~" = true →
  os_Getenv C "HOME" = "" →
  call (configure C version (providerData pc)) tr
  = (tr, Returned (None, diag_Errorf "unable to get HOME directory")).
Proof.
  intros Hk Htilde Hhome. unfold configure.
  rewrite get_kube_config, Hk, fmap_cons.
  go_run; first [congruence|reflexivity].
Qed.

(** X5. When one of the steps before the namespace check fails
    (home-directory expansion, Kubernetes configuration, Kubernetes client),
    [configure] returns that error as its diagnostic, whatever the rest of
    the block says, calls neither [ConfigureTLS] nor [api.NewClient] and
    writes no log line. *)
Theorem tunnel_build_failure_surfaces (version : string) (pc : ProviderConfig)
    (b : KubeConfigBlock) (rest : list KubeConfigBlock) (tr : list Event)
    (err : error) :
  pc_kube_config pc = b :: rest →
  buildTunnel C b = Err err →
  ∃ tr', call (configure C version (providerData pc)) tr
         = (tr', Returned (None, diag_FromErr err))
         ∧ clientsBuilt tr' = clientsBuilt tr
         ∧ tlsApplied tr' = tlsApplied tr
         ∧ logLines tr' = logLines tr.
Proof.
  intros Hk. unfold configure. rewrite get_kube_config, Hk, fmap_cons.
  go_run; intros Hb; simplify_eq;
    (eexists; split; [reflexivity|]);
    rewrite ?clientsBuilt_app, ?tlsApplied_app, ?logLines_app;
    cbn [clientsBuilt tlsApplied logLines omap]; by rewrite ?app_nil_r.
Qed.

(** X6. With a tunnel that builds and a non-empty namespace, an empty
    service name makes [configure] return "Vault service name is not
    specified" before any call to [ConfigureTLS] or [api.NewClient]. *)
Theorem empty_service_fails_before_client (version : string)
    (pc : ProviderConfig) (b : KubeConfigBlock) (rest : list KubeConfigBlock)
    (tr : list Event) (t : rest_Config * kubernetes_Clientset) :
  pc_kube_config pc = b :: rest →
  buildTunnel C b = Ok t →
  block_namespace b ≠ "" →
  block_service b = "" →
  ∃ tr', call (configure C version (providerData pc)) tr
         = (tr', Returned (None, diag_Errorf "Vault service name is not specified"))
         ∧ clientsBuilt tr' = clientsBuilt tr
         ∧ tlsApplied tr' = tlsApplied tr.
Proof.
  intros Hk Ht Hns Hsvc. revert Ht. unfold configure.
  rewrite get_kube_config, Hk, fmap_cons.
  go_run; intros Ht; simplify_eq; try (done || congruence);
    (eexists; split; [reflexivity|]);
    rewrite ?clientsBuilt_app, ?tlsApplied_app;
    cbn [clientsBuilt tlsApplied omap]; by rewrite ?app_nil_r.
Qed.
End ConfigureMore.

(** ** [~] in the configuration path *)





Section ConfigurePath.
Context (C : Collaborators).

End ConfigurePath.

(** ** [configure]: what reaches the handle, TLS and the log *)

Section ConfigureCalls.
Context (C : Collaborators).

(** X7. A handle returned for a tunnel records the block: namespace,
    service, local and remote port as read (both non-empty for the first
    two), the Kubernetes configuration and client that were built, and
    [tlsAdded] equal to [use_tls].  Its [configPath] stays empty: the code
    never assigns it. *)
Theorem tunnel_handle_records_block (version : string) (pc : ProviderConfig)
    (b : KubeConfigBlock) (rest : list KubeConfigBlock) (tr tr' : list Event)
    (a : apiClient) (ds : Diagnostics) :
  pc_kube_config pc = b :: rest →
  call (configure C version (providerData pc)) tr
  = (tr', Returned (Some a, ds)) →
  ∃ kubeConfig kubeClient,
    buildTunnel C b = Ok (kubeConfig, kubeClient)
    ∧ a_kubeConn a
      = mkKubeConn "" (block_namespace b) (block_service b)
          (block_local_port b) (block_remote_port b)
          (Some kubeConfig) (Some kubeClient)
    ∧ block_namespace b ≠ "" ∧ block_service b ≠ ""
    ∧ tlsAdded a = block_use_tls b.
Proof.
  intros Hk. unfold configure. rewrite get_kube_config, Hk, fmap_cons.
  go_run; intros Heq; simplify_eq; by eexists _, _.
Qed.

(** X8. Without a [kube_config] block [configure] makes no call into the
    Kubernetes library and none to [ConfigureTLS]; it calls [api.NewClient]
    at most once, with no TLS settings; a returned handle has [tlsAdded]
    false and an all-zero [kubeConn]. *)
Theorem direct_connection_is_plain (version : string) (pc : ProviderConfig)
    (tr : list Event) :
  pc_kube_config pc = [] →
  let run := call (configure C version (providerData pc)) tr in
  (∃ evs, run.1 = tr ++ evs
          ∧ kubeCalls evs = [] ∧ tlsApplied evs = []
          ∧ (length (clientsBuilt evs) ≤ 1)%nat
          ∧ Forall (λ c, appliedTLS c = None) (clientsBuilt evs))
  ∧ (∀ a ds, run.2 = Returned (Some a, ds) →
       tlsAdded a = false
       ∧ a_kubeConn a = mkKubeConn "" "" "" "" "" None None).
Proof.
  intros Hk run. subst run. unfold configure.
  rewrite get_kube_config, Hk, fmap_nil. split.
  - go_run; trace_nf;
      first [ by (exists []; split; [by rewrite app_nil_r|repeat split; simpl; lia || constructor])
            | eexists; (split; [reflexivity|]); repeat split;
              cbn; first [ lia | by repeat constructor ] ].
  - go_run; cbn [snd]; intros a' ds' Heq; by simplify_eq.
Qed.

(** X9. For a tunnel, TLS settings reach the Vault client configuration
    exactly on request: with [use_tls] false [ConfigureTLS] is never called
    and the client is built without TLS settings; with [use_tls] true the
    client is only ever built from a configuration carrying the settings
    that the one [ConfigureTLS] call of the run installed. *)
Theorem tunnel_tls_only_on_request (version : string) (pc : ProviderConfig)
    (b : KubeConfigBlock) (rest : list KubeConfigBlock) (tr : list Event) :
  pc_kube_config pc = b :: rest →
  let run := call (configure C version (providerData pc)) tr in
  ∃ evs, run.1 = tr ++ evs
         ∧ (block_use_tls b = false →
            tlsApplied evs = []
            ∧ Forall (λ c, appliedTLS c = None) (clientsBuilt evs))
         ∧ (block_use_tls b = true →
            Forall (λ c, ∃ t, appliedTLS c = Some t ∧ tlsApplied evs = [t])
              (clientsBuilt evs)).
Proof.
  intros Hk run. subst run. unfold configure.
  rewrite get_kube_config, Hk, fmap_cons.
  go_run; trace_nf;
    first [ by (exists []; split; [by rewrite app_nil_r|];
                split; intros _; [split|]; constructor)
          | eexists; (split; [reflexivity|]);
            split; intros Htls; try discriminate Htls;
            cbn; repeat first [ split | constructor | by eexists ] ].
Qed.

(** X10. When [ConfigureTLS] fails for a tunnel over TLS, [configure] logs
    "failed to configure Vault API client with TLS", returns the error as its
    diagnostic and never calls [api.NewClient]. *)
Theorem tls_failure_stops_configure (version : string) (pc : ProviderConfig)
    (b : KubeConfigBlock) (rest : list KubeConfigBlock) (tr : list Event)
    (t : rest_Config * kubernetes_Clientset) (err : error) :
  pc_kube_config pc = b :: rest →
  buildTunnel C b = Ok t →
  block_namespace b ≠ "" →
  block_service b ≠ "" →
  block_use_tls b = true →
  (∀ tls, tls_check C tls = Some err) →
  ∃ tr', call (configure C version (providerData pc)) tr
         = (tr', Returned (None, diag_FromErr err))
         ∧ clientsBuilt tr' = clientsBuilt tr
         ∧ logLines tr'
           = logLines tr
             ++ [("[ERROR] failed to configure Vault API client with TLS: %v",
                  [Error err])].
Proof.
  intros Hk Ht Hns Hsvc Htls Hcheck. revert Ht. unfold configure.
  rewrite get_kube_config, Hk, fmap_cons.
  go_run; intros Ht; simplify_eq; try congruence;
    try match goal with
        | H : tls_check C ?x = _ |- _ => rewrite Hcheck in H; simplify_eq
        end;
    (eexists; split; [reflexivity|]);
    rewrite ?clientsBuilt_app, ?logLines_app;
    cbn [clientsBuilt logLines omap]; by rewrite ?app_nil_r.
Qed.

(** X11. When [api.NewClient] fails, [configure] returns no handle; if the
    run got as far as calling it, the diagnostic is that error and the last
    outside call is the log line "failed to create Vault API client". *)
Theorem client_failure_is_logged_and_returned (version : string)
    (pc : ProviderConfig) (tr : list Event) (err : error) :
  (∀ cfg, api_NewClient C cfg = Err err) →
  let run := call (configure C version (providerData pc)) tr in
  ∃ evs ds, run = (tr ++ evs, Returned (None, ds))
            ∧ (clientsBuilt evs ≠ [] →
               ds = diag_FromErr err
               ∧ last evs
                 = Some (EvLogPrintf "[ERROR] failed to create Vault API client: %v"
                           [Error err])).
Proof.
  intros Hnew run. subst run. unfold configure. rewrite get_kube_config.
  destruct (pc_kube_config pc) as [|b rest];
    [rewrite fmap_nil|rewrite fmap_cons];
    go_run;
    try match goal with
        | H : api_NewClient C ?x = _ |- _ => rewrite Hnew in H; simplify_eq
        end;
    trace_nf;
    lazymatch goal with
    | |- ∃ evs ds, (tr ++ ?e, Returned (None, ?d)) = _ ∧ _ =>
        exists e, d; split; [reflexivity|]; intros Hb;
        first [ by destruct Hb | by split ]
    | |- ∃ evs ds, (tr, Returned (None, ?d)) = _ ∧ _ =>
        exists [], d; split; [by rewrite app_nil_r|]; intros Hb; by destruct Hb
    end.
Qed.

(** X12. [configure] writes at most one log line, and only when it fails
    after having called [ConfigureTLS] or [api.NewClient]; the diagnostic is
    then an error's message.  A run that returns a handle logs nothing, and
    so do the failures of the tunnel steps, of the namespace and service
    checks and of a missing address. *)
Theorem configure_logs_only_client_setup_failures (version : string)
    (pc : ProviderConfig) (tr : list Event) :
  let run := call (configure C version (providerData pc)) tr in
  ∃ evs, run.1 = tr ++ evs
         ∧ (logLines evs = []
            ∨ ∃ line err, logLines evs = [line]
                          ∧ run.2 = Returned (None, diag_FromErr err)
                          ∧ (tlsApplied evs ≠ [] ∨ clientsBuilt evs ≠ []))
         ∧ (∀ a ds, run.2 = Returned (Some a, ds) → logLines evs = []).
Proof.
  intros run. subst run. unfold configure. rewrite get_kube_config.
  destruct (pc_kube_config pc) as [|b rest];
    [rewrite fmap_nil|rewrite fmap_cons];
    go_run; trace_nf;
    first [ by (exists []; split; [by rewrite app_nil_r|]; split; [by left|done])
          | eexists; (split; [reflexivity|]); split;
            [ first [ by left
                    | right; eexists _, _; split; [reflexivity|];
                      split; [reflexivity|]; first [by left|by right] ]
            | intros a' ds' Heq; by simplify_eq ] ].
Qed.
End ConfigureCalls.

(** ** The init resource: state, create and import *)

Lemma initsSent_app tr evs : initsSent (tr ++ evs) = initsSent tr ++ initsSent evs.
Proof. apply omap_app. Qed.

Lemma updateState_SetId d id0 id res :
  updateState (d_SetId d id0) id res = updateState d id res.
Proof.
  unfold updateState, d_SetId, d_Set; cbn [rd_schema rd_id rd_attrs].
  repeat (destruct (_ !! _) as [?|]; cbn [fst rd_schema rd_id rd_attrs];
          [destruct (hasType _ _); cbn [fst rd_schema rd_id rd_attrs]|]);
    reflexivity.
Qed.

(** X16. On resource data of the init resource a second [updateState]
    replaces all that the first one wrote: id, root token and both key
    lists.  Nothing of the first result survives. *)
Theorem updateState_last_write_wins (d : ResourceData) (id1 id2 : string)
    (r1 r2 : api_InitResponse) :
  rd_schema d = resourceInitSchema →
  updateState (updateState d id1 r1) id2 r2 = updateState d id2 r2.
Proof.
  intros Hs.
  rewrite (updateState_attrs (updateState d id1 r1))
    by by apply updateState_schema.
  rewrite !updateState_attrs by done. cbn [rd_attrs]. f_equal.
  apply map_eq. intros key. rewrite !lookup_insert.
  repeat case_decide; done.
Qed.

(** X17. [updateState] leaves [secret_shares] and [secret_threshold] and the
    schema of the resource data as they were. *)
Theorem updateState_keeps_request (d : ResourceData) (id : string)
    (res : api_InitResponse) :
  rd_schema d = resourceInitSchema →
  rd_schema (updateState d id res) = resourceInitSchema
  ∧ d_Get (updateState d id res) argSecretShares = d_Get d argSecretShares
  ∧ d_Get (updateState d id res) argSecretThreshold = d_Get d argSecretThreshold.
Proof.
  intros Hs. split; [by apply updateState_schema|].
  split; apply updateState_other; done || key_ne.
Qed.

(** A collaborator asked the same question fails the same way. *)
Ltac same_error :=
  repeat match goal with
         | H1 : ?x = Err _, H2 : ?x = Err _ |- _ =>
             rewrite H1 in H2; injection H2 as <-
         end.

Section ResourceMore.
Context (C : Collaborators).

(** X18. When the initialize call succeeds, create sends exactly the
    configured [secret_shares] and [secret_threshold] (no local check on
    them), logs nothing, returns no diagnostics, and leaves resource data
    whose id is the client's address and whose [root_token], [keys] and
    [keys_base64] are the response's, with the two request attributes
    unchanged. *)
Theorem create_success_records_result (d : ResourceData) (meta : apiClient)
    (c : api_Client) (shares threshold : Z) (tr : list Event)
    (res : api_InitResponse) :
  rd_schema d = resourceInitSchema →
  d_Get d argSecretShares = Some (VInt shares) →
  d_Get d argSecretThreshold = Some (VInt threshold) →
  client meta = Some c →
  sys_Init C tr c (mkInitRequest shares threshold) = Ok res →
  ∃ d', call (resourceInitCreate C d meta) tr
        = (tr ++ [EvSysInit c (mkInitRequest shares threshold)],
           Returned (d', []))
        ∧ d_Id d' = client_Address C c
        ∧ stateString d' argRootToken = Some (RootToken res)
        ∧ stateStrings d' argKeys = Some (Keys res)
        ∧ stateStrings d' argKeysBase64 = Some (KeysB64 res)
        ∧ d_Get d' argSecretShares = Some (VInt shares)
        ∧ d_Get d' argSecretThreshold = Some (VInt threshold).
Proof.
  intros Hs Hsh Hth Hc Hres.
  exists (updateState d (client_Address C c) res).
  split; [by apply resourceInitCreate_success|].
  destruct (updateState_get d (client_Address C c) res Hs) as (Hid & Ht & Hk & Hb).
  unfold stateString, stateStrings. rewrite Hid, Ht, Hk, Hb, !mapM_strings.
  rewrite !updateState_other by (done || key_ne). done.
Qed.

(** X19. With a handle that has a client, the importer either returns an
    error with the resource data untouched, or returns the resource data
    updated from a decoded response; it never panics, never sends an
    initialize request, never builds a client, and reads at most one
    file. *)
Theorem importer_is_all_or_nothing (d : ResourceData) (meta : apiClient)
    (c : api_Client) (tr : list Event) :
  client meta = Some c →
  let run := call (resourceInitImporter C d meta) tr in
  ((∃ err, run.2 = Returned (d, Err err))
   ∨ (∃ res, run.2 = Returned (updateState d (client_Address C c) res,
                               Ok [updateState d (client_Address C c) res])))
  ∧ ∃ evs, run.1 = tr ++ evs
           ∧ initsSent evs = [] ∧ clientsBuilt evs = []
           ∧ (length (filesRead evs) ≤ 1)%nat.
Proof.
  intros Hc run. subst run. unfold resourceInitImporter.
  go_run; simplify_eq; trace_nf;
    (split; [first [by (left; eexists) | by (right; eexists)]|]);
    eexists; (split; [reflexivity|]); repeat split; cbn; lia.
Qed.

(** X20. Each failure of the importer is returned as the error it got, after
    one log line, with the resource data untouched: a URL that does not
    parse (no file is read), a file that cannot be read, a content that does
    not decode. *)
Theorem importer_errors_are_returned_as_is (d : ResourceData)
    (meta : apiClient) (tr : list Event) (err : error) :
  (url_Parse C (d_Id d) = Err err →
   call (resourceInitImporter C d meta) tr
   = (tr ++ [EvLogPrintf "[ERROR] failed parsing id url %v" [Error err]],
      Returned (d, Err err)))
  ∧ (∀ u, url_Parse C (d_Id d) = Ok u → Scheme u = "file" →
       ioutil_ReadFile C (filepath_Join [Host u; Path u]) = Err err →
       call (resourceInitImporter C d meta) tr
       = (tr ++ [EvReadFile (filepath_Join [Host u; Path u]);
                 EvLogPrintf "[ERROR] failed reading file %v" [Error err]],
          Returned (d, Err err)))
  ∧ (∀ u fc, url_Parse C (d_Id d) = Ok u → Scheme u = "file" →
       ioutil_ReadFile C (filepath_Join [Host u; Path u]) = Ok fc →
       json_Unmarshal C fc = Err err →
       call (resourceInitImporter C d meta) tr
       = (tr ++ [EvReadFile (filepath_Join [Host u; Path u]);
                 EvLogPrintf "[ERROR] failed unmarshalling json: %v" [Error err]],
          Returned (d, Err err))).
Proof.
  unfold resourceInitImporter. split; [|split].
  - intros Hu. rewrite Hu. go_run. reflexivity.
  - intros u Hu Hs Hf. rewrite Hu.
    go_run; try done; simplify_eq; same_answer; by trace_nf.
  - intros u fc Hu Hs Hf Hj. rewrite Hu.
    go_run; try done; simplify_eq; same_answer; same_error; by trace_nf.
Qed.

(** X21. A [file] URL with empty host and empty path, which is how
    [file:name.json] without slashes parses (the name is in [Opaque]), makes
    the importer read the empty path, not the named file. *)
Theorem opaque_file_uri_reads_empty_path (d : ResourceData) (meta : apiClient)
    (tr : list Event) (u : URL) :
  url_Parse C (d_Id d) = Ok u →
  Scheme u = "file" →
  Host u = "" →
  Path u = "" →
  filesRead (call (resourceInitImporter C d meta) tr).1 = filesRead tr ++ [""].
Proof.
  intros Hu Hs Hh Hp. unfold resourceInitImporter. rewrite Hu.
  go_run; try done; cbn [fst];
    rewrite <- ?(assoc_L (++)), filesRead_app, Hh, Hp; reflexivity.
Qed.

(** X22. Import reproduces create: when the file decodes to the response
    that the initialize call returns, the importer, started from the same
    resource data under any import id, leaves exactly the resource data that
    create leaves. *)
Theorem import_stores_what_create_would (d : ResourceData) (meta : apiClient)
    (c : api_Client) (shares threshold : Z) (tr tr0 : list Event)
    (id : string) (u : URL) (fc : string) (res : api_InitResponse) :
  d_Get d argSecretShares = Some (VInt shares) →
  d_Get d argSecretThreshold = Some (VInt threshold) →
  client meta = Some c →
  sys_Init C tr c (mkInitRequest shares threshold) = Ok res →
  url_Parse C id = Ok u →
  Scheme u = "file" →
  ioutil_ReadFile C (filepath_Join [Host u; Path u]) = Ok fc →
  json_Unmarshal C fc = Ok res →
  ∃ d', (call (resourceInitCreate C d meta) tr).2 = Returned (d', [])
        ∧ (call (resourceInitImporter C (d_SetId d id) meta) tr0).2
          = Returned (d', Ok [d']).
Proof.
  intros Hsh Hth Hc Hres Hu Hs Hf Hj.
  exists (updateState d (client_Address C c) res). split.
  - by rewrite (resourceInitCreate_success C d meta c shares threshold tr res).
  - unfold resourceInitImporter. cbn [d_Id d_SetId rd_id]. rewrite Hu.
    go_run; try done; simplify_eq; same_answer; cbn [snd];
      by rewrite updateState_SetId.
Qed.
End ResourceMore.

(** ** From [configure] to the hooks *)

Lemma configure_handle_has_client (C : Collaborators) (version : string)
    (pc : ProviderConfig) (tr tr' : list Event) (a : apiClient)
    (ds : Diagnostics) :
  call (configure C version (providerData pc)) tr
  = (tr', Returned (Some a, ds)) →
  ∃ c, client a = Some c.
Proof.
  unfold configure. rewrite get_kube_config.
  destruct (pc_kube_config pc) as [|b rest];
    [rewrite fmap_nil|rewrite fmap_cons];
    go_run; intros Heq; simplify_eq; by eexists.
Qed.

(** X23. A handle returned by [configure] is fit for the hooks: with it,
    create on resource data carrying integer shares and threshold returns
    after exactly one initialize request, and the importer returns, neither
    panicking on a nil client. *)
Theorem hooks_run_on_configured_handle (C : Collaborators) (version : string)
    (pc : ProviderConfig) (tr tr1 : list Event) (a : apiClient)
    (ds : Diagnostics) (d : ResourceData) (shares threshold : Z) :
  call (configure C version (providerData pc)) tr
  = (tr1, Returned (Some a, ds)) →
  d_Get d argSecretShares = Some (VInt shares) →
  d_Get d argSecretThreshold = Some (VInt threshold) →
  (∃ tr2 r, call (resourceInitCreate C d a) tr1 = (tr2, Returned r)
            ∧ initsSent tr2 = initsSent tr1 ++ [mkInitRequest shares threshold])
  ∧ (∃ tr2 r, call (resourceInitImporter C d a) tr1 = (tr2, Returned r)).
Proof.
  intros Hcfg Hsh Hth.
  destruct (configure_handle_has_client C version pc tr tr1 a ds Hcfg) as [c Hc].
  split.
  - destruct (sys_Init C tr1 c (mkInitRequest shares threshold)) as [res|err] eqn:Hinit.
    + rewrite (resourceInitCreate_success C d a c shares threshold tr1 res) by done.
      eexists _, _. split; [reflexivity|]. by rewrite initsSent_app.
    + rewrite (resourceInitCreate_failure C d a c shares threshold tr1 err) by done.
      eexists _, _. split; [reflexivity|]. by rewrite initsSent_app.
  - unfold resourceInitImporter. go_run; simplify_eq; by eexists _, _.
Qed.

(** ** Concrete runs of the further properties *)

Lemma configure_reads_first_block_only_witness :
  pc_kube_config twoTunnelsConfig = plainTunnelBlock :: [tlsTunnelBlock]
  ∧ call (configure (demoWorld "/home/op" "") "1.0"
            (providerData twoTunnelsConfig)) []
    = call (configure (demoWorld "/home/op" "") "1.0"
              (providerData (onlyFirstBlock plainTunnelBlock))) [].
Proof.
  split; [reflexivity|].
  apply (configure_reads_first_block_only (demoWorld "/home/op" "") "1.0"
           twoTunnelsConfig plainTunnelBlock [tlsTunnelBlock] []).
  reflexivity.
Defined.

Lemma unset_home_stops_configure_witness :
  pc_kube_config unnamedTunnelConfig = [unnamedTunnelBlock]
  ∧ strings_Contains (block_path unnamedTunnelBlock) "~" = true
  ∧ os_Getenv (demoWorld "" "") "HOME" = ""
  ∧ call (configure (demoWorld "" "") "1.0" (providerData unnamedTunnelConfig)) []
    = ([], Returned (None, diag_Errorf "unable to get HOME directory")).
Proof.
  split; [reflexivity|]. split; [reflexivity|]. split; [reflexivity|].
  apply (unset_home_stops_configure (demoWorld "" "") "1.0"
           unnamedTunnelConfig unnamedTunnelBlock [] []);
    reflexivity.
Defined.


(** Every [~] is replaced, not only a leading one. *)
Example tilde_inside_path_is_replaced :
  kubeconfigPaths
    (call (configure (demoWorld "/home/op" "") "1.0"
             (providerData tildeInsideConfig)) []).1
  = [("", "/srv//home/opkube/config")].
Proof. by vm_compute. Qed.

Lemma tunnel_build_failure_surfaces_witness :
  pc_kube_config plainTunnelConfig = [plainTunnelBlock]
  ∧ buildTunnel (withBuildConfigError (errors_New "invalid configuration")
                   (demoWorld "/home/op" "")) plainTunnelBlock
    = Err (errors_New "invalid configuration")
  ∧ ∃ tr',
      call (configure (withBuildConfigError (errors_New "invalid configuration")
                         (demoWorld "/home/op" "")) "1.0"
              (providerData plainTunnelConfig)) []
      = (tr', Returned (None, diag_FromErr (errors_New "invalid configuration")))
      ∧ clientsBuilt tr' = clientsBuilt []
      ∧ tlsApplied tr' = tlsApplied []
      ∧ logLines tr' = logLines [].
Proof.
  split; [reflexivity|]. split; [by vm_compute|].
  apply (tunnel_build_failure_surfaces
           (withBuildConfigError (errors_New "invalid configuration")
              (demoWorld "/home/op" "")) "1.0"
           plainTunnelConfig plainTunnelBlock [] []);
    [reflexivity|by vm_compute].
Defined.

Lemma empty_service_fails_before_client_witness :
  pc_kube_config serviceLessConfig = [serviceLessBlock]
  ∧ buildTunnel (demoWorld "/home/op" "") serviceLessBlock
    = Ok (RestConfigHandle 0, ClientsetHandle 0)
  ∧ block_namespace serviceLessBlock ≠ ""
  ∧ block_service serviceLessBlock = ""
  ∧ ∃ tr',
      call (configure (demoWorld "/home/op" "") "1.0"
              (providerData serviceLessConfig)) []
      = (tr', Returned (None, diag_Errorf "Vault service name is not specified"))
      ∧ clientsBuilt tr' = clientsBuilt []
      ∧ tlsApplied tr' = tlsApplied [].
Proof.
  split; [reflexivity|]. split; [by vm_compute|]. split; [discriminate|].
  split; [reflexivity|].
  apply (empty_service_fails_before_client (demoWorld "/home/op" "") "1.0"
           serviceLessConfig serviceLessBlock [] []
           (RestConfigHandle 0, ClientsetHandle 0));
    [reflexivity|by vm_compute|discriminate|reflexivity].
Defined.

Lemma tunnel_handle_records_block_witness :
  pc_kube_config plainTunnelConfig = [plainTunnelBlock]
  ∧ ∃ tr' a ds,
      call (configure (demoWorld "/home/op" "") "1.0"
              (providerData plainTunnelConfig)) []
      = (tr', Returned (Some a, ds))
      ∧ a_kubeConn a
        = mkKubeConn "" "vault" "vault-active" "8200" "8200"
            (Some (RestConfigHandle 0)) (Some (ClientsetHandle 0)).
Proof.
  split; [reflexivity|]. eexists _, _, _. split; [by vm_compute|].
  destruct (tunnel_handle_records_block (demoWorld "/home/op" "") "1.0"
              plainTunnelConfig plainTunnelBlock [] [] _ _ _ eq_refl eq_refl)
    as (kc & kcl & Hb & Hconn & _).
  vm_compute in Hb. injection Hb as <- <-. exact Hconn.
Defined.

Lemma direct_connection_is_plain_witness :
  pc_kube_config directConfig = []
  ∧ ∃ evs,
      (call (configure (demoWorld "/home/op" "") "1.0"
               (providerData directConfig)) []).1 = [] ++ evs
      ∧ kubeCalls evs = [] ∧ tlsApplied evs = []
      ∧ (length (clientsBuilt evs) ≤ 1)%nat
      ∧ Forall (λ c, appliedTLS c = None) (clientsBuilt evs).
Proof.
  split; [reflexivity|].
  apply (direct_connection_is_plain (demoWorld "/home/op" "") "1.0"
           directConfig []).
  reflexivity.
Defined.

Lemma tunnel_tls_only_on_request_witness :
  pc_kube_config tlsTunnelConfig = [tlsTunnelBlock]
  ∧ ∃ evs,
      (call (configure (demoWorld "/home/op" "") "1.0"
               (providerData tlsTunnelConfig)) []).1 = [] ++ evs
      ∧ (block_use_tls tlsTunnelBlock = false →
         tlsApplied evs = []
         ∧ Forall (λ c, appliedTLS c = None) (clientsBuilt evs))
      ∧ (block_use_tls tlsTunnelBlock = true →
         Forall (λ c, ∃ t, appliedTLS c = Some t ∧ tlsApplied evs = [t])
           (clientsBuilt evs)).
Proof.
  split; [reflexivity|].
  apply (tunnel_tls_only_on_request (demoWorld "/home/op" "") "1.0"
           tlsTunnelConfig tlsTunnelBlock [] []).
  reflexivity.
Defined.

Lemma tls_failure_stops_configure_witness :
  pc_kube_config tlsTunnelConfig = [tlsTunnelBlock]
  ∧ block_use_tls tlsTunnelBlock = true
  ∧ (∀ tls, tls_check (withTLSError (errors_New "bad certificate")
                         (demoWorld "/home/op" "")) tls
            = Some (errors_New "bad certificate"))
  ∧ ∃ tr',
      call (configure (withTLSError (errors_New "bad certificate")
                         (demoWorld "/home/op" "")) "1.0"
              (providerData tlsTunnelConfig)) []
      = (tr', Returned (None, diag_FromErr (errors_New "bad certificate")))
      ∧ clientsBuilt tr' = clientsBuilt []
      ∧ logLines tr'
        = logLines []
          ++ [("[ERROR] failed to configure Vault API client with TLS: %v",
               [Error (errors_New "bad certificate")])].
Proof.
  split; [reflexivity|]. split; [reflexivity|]. split; [reflexivity|].
  apply (tls_failure_stops_configure
           (withTLSError (errors_New "bad certificate") (demoWorld "/home/op" ""))
           "1.0" tlsTunnelConfig tlsTunnelBlock [] []
           (RestConfigHandle 0, ClientsetHandle 0));
    [reflexivity|by vm_compute|discriminate|discriminate|reflexivity|reflexivity].
Defined.

Lemma client_failure_is_logged_and_returned_witness :
  (∀ cfg, api_NewClient (withNewClientError (errors_New "bad address")
                           (demoWorld "/home/op" "")) cfg
          = Err (errors_New "bad address"))
  ∧ ∃ evs ds,
      call (configure (withNewClientError (errors_New "bad address")
                         (demoWorld "/home/op" "")) "1.0"
              (providerData directConfig)) []
      = ([] ++ evs, Returned (None, ds))
      ∧ (clientsBuilt evs ≠ [] →
         ds = diag_FromErr (errors_New "bad address")
         ∧ last evs
           = Some (EvLogPrintf "[ERROR] failed to create Vault API client: %v"
                     [Error (errors_New "bad address")])).
Proof.
  split; [reflexivity|].
  apply (client_failure_is_logged_and_returned
           (withNewClientError (errors_New "bad address") (demoWorld "/home/op" ""))
           "1.0" directConfig [] (errors_New "bad address")).
  reflexivity.
Defined.

Lemma updateState_last_write_wins_witness :
  rd_schema plannedInit = resourceInitSchema
  ∧ updateState (updateState plannedInit "http://a:8200" exampleInitResponse)
      "http://b:8200" otherInitResponse
    = updateState plannedInit "http://b:8200" otherInitResponse.
Proof.
  split; [reflexivity|].
  apply (updateState_last_write_wins plannedInit "http://a:8200" "http://b:8200"
           exampleInitResponse otherInitResponse).
  reflexivity.
Defined.

Lemma updateState_keeps_request_witness :
  rd_schema plannedInit = resourceInitSchema
  ∧ d_Get (updateState plannedInit "http://a:8200" exampleInitResponse)
      argSecretShares
    = Some (VInt 5)
  ∧ d_Get (updateState plannedInit "http://a:8200" exampleInitResponse)
      argSecretThreshold
    = Some (VInt 3).
Proof.
  split; [reflexivity|].
  destruct (updateState_keeps_request plannedInit "http://a:8200"
              exampleInitResponse eq_refl) as (_ & Hsh & Hth).
  split; [exact Hsh|exact Hth].
Defined.

Lemma create_success_records_result_witness :
  rd_schema plannedInit = resourceInitSchema
  ∧ sys_Init (demoWorld "/home/op" "") [] (VaultClientHandle 0) (mkInitRequest 5 3)
    = Ok exampleInitResponse
  ∧ ∃ d', call (resourceInitCreate (demoWorld "/home/op" "") plannedInit demoClient) []
          = ([EvSysInit (VaultClientHandle 0) (mkInitRequest 5 3)],
             Returned (d', []))
          ∧ d_Id d' = "http://vault.example:8200"
          ∧ stateString d' argRootToken = Some "t1"
          ∧ stateStrings d' argKeys = Some ["k1"]
          ∧ stateStrings d' argKeysBase64 = Some ["a2k="]
          ∧ d_Get d' argSecretShares = Some (VInt 5)
          ∧ d_Get d' argSecretThreshold = Some (VInt 3).
Proof.
  split; [reflexivity|]. split; [reflexivity|].
  apply (create_success_records_result (demoWorld "/home/op" "") plannedInit
           demoClient (VaultClientHandle 0) 5 3 [] exampleInitResponse);
    by vm_compute.
Defined.

Lemma importer_is_all_or_nothing_witness :
  client demoClient = Some (VaultClientHandle 0)
  ∧ ∃ evs,
      (call (resourceInitImporter (demoWorld "/home/op" "")
               (importedInit "file:///tmp/missing.json") demoClient) []).1
      = [] ++ evs
      ∧ initsSent evs = [] ∧ clientsBuilt evs = []
      ∧ (length (filesRead evs) ≤ 1)%nat.
Proof.
  split; [reflexivity|].
  apply (importer_is_all_or_nothing (demoWorld "/home/op" "")
           (importedInit "file:///tmp/missing.json") demoClient
           (VaultClientHandle 0) []).
  reflexivity.
Defined.

Lemma importer_errors_are_returned_as_is_witness :
  url_Parse (withParseError (errors_New "missing protocol scheme")
               (demoWorld "/home/op" "")) (d_Id (importedInit ":x"))
  = Err (errors_New "missing protocol scheme")
  ∧ call (resourceInitImporter
            (withParseError (errors_New "missing protocol scheme")
               (demoWorld "/home/op" ""))
            (importedInit ":x") demoClient) []
    = ([EvLogPrintf "[ERROR] failed parsing id url %v" ["missing protocol scheme"]],
       Returned (importedInit ":x", Err (errors_New "missing protocol scheme"))).
Proof.
  split; [reflexivity|].
  apply (importer_errors_are_returned_as_is
           (withParseError (errors_New "missing protocol scheme")
              (demoWorld "/home/op" ""))
           (importedInit ":x") demoClient []
           (errors_New "missing protocol scheme")).
  reflexivity.
Defined.

Lemma opaque_file_uri_reads_empty_path_witness :
  url_Parse (demoWorld "/home/op" "") (d_Id (importedInit "file:name.json"))
  = Ok (mkURL "file" "name.json" "" "")
  ∧ filesRead
      (call (resourceInitImporter (demoWorld "/home/op" "")
               (importedInit "file:name.json") demoClient) []).1
    = [""].
Proof.
  split; [by vm_compute|].
  apply (opaque_file_uri_reads_empty_path (demoWorld "/home/op" "")
           (importedInit "file:name.json") demoClient []
           (mkURL "file" "name.json" "" ""));
    by vm_compute.
Defined.

Lemma import_stores_what_create_would_witness :
  sys_Init (demoWorld "/home/op" "") [] (VaultClientHandle 0) (mkInitRequest 5 3)
  = Ok exampleInitResponse
  ∧ json_Unmarshal (demoWorld "/home/op" "") exampleInitJson
    = Ok exampleInitResponse
  ∧ ∃ d',
      (call (resourceInitCreate (demoWorld "/home/op" "") plannedInit demoClient)
         []).2
      = Returned (d', [])
      ∧ (call (resourceInitImporter (demoWorld "/home/op" "")
                 (d_SetId plannedInit "file:///tmp/x.json") demoClient) []).2
        = Returned (d', Ok [d']).
Proof.
  split; [reflexivity|]. split; [by vm_compute|].
  apply (import_stores_what_create_would (demoWorld "/home/op" "") plannedInit
           demoClient (VaultClientHandle 0) 5 3 [] [] "file:///tmp/x.json"
           (mkURL "file" "" "" "/tmp/x.json") exampleInitJson
           exampleInitResponse);
    by vm_compute.
Defined.

Lemma hooks_run_on_configured_handle_witness :
  call (configure (demoWorld "/home/op" "") "1.0" (providerData directConfig)) []
  = ([EvNewClient (mkConfig "http://vault.example:8200" None)],
     Returned (Some demoClient, []))
  ∧ ∃ tr2 r,
      call (resourceInitCreate (demoWorld "/home/op" "") plannedInit demoClient)
        [EvNewClient (mkConfig "http://vault.example:8200" None)]
      = (tr2, Returned r)
      ∧ initsSent tr2
        = initsSent [EvNewClient (mkConfig "http://vault.example:8200" None)]
          ++ [mkInitRequest 5 3].
Proof.
  split; [by vm_compute|].
  apply (hooks_run_on_configured_handle (demoWorld "/home/op" "") "1.0"
           directConfig [] [EvNewClient (mkConfig "http://vault.example:8200" None)]
           demoClient [] plannedInit 5 3);
    by vm_compute.
Defined.


Lemma legacy_tunnel_address_witness :
  pc_kube_config plainTunnelConfig = [plainTunnelBlock]
  ∧ ∃ tr' a ds,
      call (Legacy.configure (demoWorld "/home/op" "") "1.0"
              (Legacy.providerData plainTunnelConfig)) []
      = (tr', Returned (Some a, ds))
      ∧ Legacy.url a = "http://localhost:8200".
Proof.
  split; [reflexivity|]. eexists _, _, _. split; [by vm_compute|].
  eapply (legacy_tunnel_address (demoWorld "/home/op" "") "1.0"
            plainTunnelConfig plainTunnelBlock [] []);
    [reflexivity|by vm_compute].
Defined.

Lemma legacy_direct_address_witness :
  pc_kube_config directConfig = []
  ∧ ∀ tr' a ds,
      call (Legacy.configure (demoWorld "/home/op" "http://env.example:8200")
              "1.0" (Legacy.providerData directConfig)) []
      = (tr', Returned (Some a, ds)) →
      Legacy.url a = "http://vault.example:8200".
Proof.
  split; [reflexivity|].
  apply (legacy_direct_address (demoWorld "/home/op" "http://env.example:8200")
           "1.0" directConfig []).
  reflexivity.
Defined.
